(** * Savings-jar dashboards: analytics derivation and circle segments

    A shallow embedding of the two computations of the repository:

    - [CircleVisualization]: the four colour segments of the progress ring
      (src/components/CircleVisualization.tsx, lines 14-17);
    - [AdvancedAnalytics]: the [analytics] bundle computed inside [useMemo]
      (lines 37-222 of the analytics component).

    Conventions of the embedding.

    - A JavaScript number holding money is the rational it denotes ([Q]);
      numbers holding counts, indices and day numbers are integers ([Z]).
      The definitions of [AdvancedAnalytics] that only add and compare
      amounts give the exact sums.  Where rounding decides a statement, the
      operation is written with its rounding to binary64 ([Binary64]): in
      the goal predictions, and in the module [Doubles], which repeats the
      sums with every addition rounded as the source performs it.  NaN and
      the infinities are outside the model: the statements about rounded
      results are for inputs on which no operation overflows
      ([Binary64.finite], [noOverflow]).
    - A [Date] taken from the input is its time value: milliseconds since
      the epoch, a [Z]; the dates of the input are valid dates.  A date
      built from a computed number is a [JsDate], which is invalid beyond
      8.64e15 ms either side of the epoch.
    - The name of a jar is user text: a sequence of UTF-16 code units
      ([JsString]); texts the program itself writes are plain strings.
    - The host time zone is UTC, so that local calendar fields are those of
      the proleptic Gregorian calendar and a day always has 86 400 000 ms.
    - The functions imported from date-fns are modelled from their
      documented behaviour, next to the place where they are first used. *)

From Stdlib Require Import ZArith QArith Qround Qabs List String Ascii Bool Lia
  Lqa Permutation Sorted DecimalString.
Import ListNotations.

Local Open Scope Z_scope.

(** ** CircleVisualization *)

Module CircleVisualization.

Local Open Scope Q_scope.

(** [Math.min] and [Math.max] on two numbers. *)
Definition Math_min (a b : Q) : Q := if Qle_bool a b then a else b.
Definition Math_max (a b : Q) : Q := if Qle_bool a b then b else a.

Definition redProgress (progress : Q) : Q := Math_min progress 25.
Definition orangeProgress (progress : Q) : Q :=
  Math_min (Math_max (progress - 25) 0) 25.
Definition blueProgress (progress : Q) : Q :=
  Math_min (Math_max (progress - 50) 0) 25.
Definition greenProgress (progress : Q) : Q :=
  Math_min (Math_max (progress - 75) 0) 25.

Definition segmentSum (progress : Q) : Q :=
  redProgress progress + orangeProgress progress
  + blueProgress progress + greenProgress progress.

End CircleVisualization.

(** ** Numbers: rounding to binary64 *)

Module Binary64.

(** [floor (log2 (n / d))] for positive [n] and [d]. *)
Definition floorLog2 (n d : Z) : Z :=
  let k := Z.log2 n - Z.log2 d in
  if (if 0 <=? k then d * 2 ^ k <=? n else d <=? n * 2 ^ (- k)) then k else k - 1.

(** [num / den] rounded to the nearest integer, ties to even. *)
Definition roundHalfEven (num den : Z) : Z :=
  let fl := num / den in
  let r := num mod den in
  match 2 * r ?= den with
  | Lt => fl
  | Gt => fl + 1
  | Eq => if Z.even fl then fl else fl + 1
  end.

(** The double nearest to [q], ties to even: 53 significant bits, the
    exponent of the last bit not below -1074 (subnormal numbers and
    underflow to 0 included). *)
Definition round64 (q : Q) : Q :=
  let q := Qred q in
  let n := Qnum q in
  let d := Zpos (Qden q) in
  if n =? 0 then 0%Q
  else
    let a := Z.abs n in
    let e := Z.max (floorLog2 a d - 52) (-1074) in
    let m := if 0 <=? e then roundHalfEven a (d * 2 ^ e)
             else roundHalfEven (a * 2 ^ (- e)) d in
    let sm := Z.sgn n * m in
    if 0 <=? e then inject_Z (sm * 2 ^ e) else Qmake sm (Z.to_pos (2 ^ (- e))).

(** [a + b], [a - b], [a * b] and [a / b] on doubles. *)
Definition fadd (a b : Q) : Q := round64 (a + b).
Definition fsub (a b : Q) : Q := round64 (a - b).
Definition fmul (a b : Q) : Q := round64 (a * b).
Definition fdiv (a b : Q) : Q := round64 (a / b).

(** What rounding does to an integer [z] that is not negative: the result
    [w] is [z] itself up to 2^53, and not below 2^53 beyond. *)
Definition exactOrBig (z w : Z) : Prop :=
  (z <= 2 ^ 53 /\ w = z) \/ (2 ^ 53 < z /\ 2 ^ 53 <= w).

(** A result whose exact value reaches [overflowBound] is Infinity in
    doubles.  The operations above have no Infinity; [finite] and
    [sumFinite] say that an exact value, and every step of a sum from the
    left, stays below the bound. *)
Definition overflowBound : Z := 2 ^ 1024 - 2 ^ 970.

Definition finite (q : Q) : Prop := (Qabs q < inject_Z overflowBound)%Q.

Fixpoint sumFinite (acc : Q) (l : list Q) : Prop :=
  match l with
  | [] => True
  | x :: l' => finite (acc + x) /\ sumFinite (fadd acc x) l'
  end.

End Binary64.

(** ** Texts entered by the user *)

Module JsString.

(** A JavaScript string, by its UTF-16 code units. *)
Definition t : Type := list N.

(** [s.length], [s.substring(from, to)] for [from <= to], and [a + b]. *)
Definition length (s : t) : nat := List.length s.
Definition substring (from to : nat) (s : t) : t :=
  firstn (to - from) (skipn from s).
Definition append (a b : t) : t := (a ++ b)%list.

(** A text of ASCII characters, one code unit each. *)
Definition ofAscii (s : string) : t := map N_of_ascii (list_ascii_of_string s).

End JsString.

(** ** Dates: the JavaScript [Date] object and the date-fns functions used *)

Module DateFns.

Definition msPerDay : Z := 86400000.

(** [Day(t)] and [TimeWithinDay(t)] of ECMAScript. *)
Definition Day (t : Z) : Z := t / msPerDay.
Definition TimeWithinDay (t : Z) : Z := t mod msPerDay.
Definition MakeDate (day time : Z) : Z := day * msPerDay + time.

Definition isLeapYear (y : Z) : bool :=
  (y mod 4 =? 0) && (negb (y mod 100 =? 0) || (y mod 400 =? 0)).

(** Day number of the first of January of year [y]. *)
Definition DayFromYear (y : Z) : Z :=
  365 * (y - 1970) + (y - 1969) / 4 - (y - 1901) / 100 + (y - 1601) / 400.

(** Months are numbered from 0 (January) to 11, as [getMonth] does. *)
Definition daysInMonth (y m : Z) : Z :=
  match m with
  | 1 => if isLeapYear y then 29 else 28
  | 3 | 5 | 8 | 10 => 30
  | _ => 31
  end.

Definition daysBeforeMonth (y m : Z) : Z :=
  let leap := if isLeapYear y then 1 else 0 in
  match m with
  | 0 => 0
  | 1 => 31
  | 2 => 59 + leap
  | 3 => 90 + leap
  | 4 => 120 + leap
  | 5 => 151 + leap
  | 6 => 181 + leap
  | 7 => 212 + leap
  | 8 => 243 + leap
  | 9 => 273 + leap
  | 10 => 304 + leap
  | _ => 334 + leap
  end.

(** [MakeDay(year, month, date)]: the month may lie outside 0..11 and the
    date outside the month; both carry over, which is how [setDate],
    [setMonth] and [setFullYear] normalise their arguments. *)
Definition MakeDay (year month date : Z) : Z :=
  let ym := year + month / 12 in
  let mn := month mod 12 in
  DayFromYear ym + daysBeforeMonth ym mn + date - 1.

(** [YearFromTime], [MonthFromTime] and [DateFromTime] of ECMAScript, on
    day numbers.  The year is the one whose first day is the latest not
    after [n]: an estimate from the mean length of a year, corrected by at
    most one ([YearFromDay_spec] below). *)
Definition YearFromDay (n : Z) : Z :=
  let y := 1970 + (400 * n) / 146097 in
  if n <? DayFromYear y then y - 1
  else if DayFromYear (y + 1) <=? n then y + 1
  else y.

Definition DayWithinYear (n : Z) : Z := n - DayFromYear (YearFromDay n).

Definition MonthFromDay (n : Z) : Z :=
  let d := DayWithinYear n in
  let leap := if isLeapYear (YearFromDay n) then 1 else 0 in
  if d <? 31 then 0
  else if d <? 59 + leap then 1
  else if d <? 90 + leap then 2
  else if d <? 120 + leap then 3
  else if d <? 151 + leap then 4
  else if d <? 181 + leap then 5
  else if d <? 212 + leap then 6
  else if d <? 243 + leap then 7
  else if d <? 273 + leap then 8
  else if d <? 304 + leap then 9
  else if d <? 334 + leap then 10
  else 11.

Definition DateFromDay (n : Z) : Z :=
  DayWithinYear n - daysBeforeMonth (YearFromDay n) (MonthFromDay n) + 1.

Definition getFullYear (t : Z) : Z := YearFromDay (Day t).
Definition getMonth (t : Z) : Z := MonthFromDay (Day t).
Definition getDate (t : Z) : Z := DateFromDay (Day t).
Definition getTime (t : Z) : Z := t.

(** [getDay]: 0 is Sunday; the epoch was a Thursday. *)
Definition getDay (t : Z) : Z := (Day t + 4) mod 7.

(** [d.setDate(n)] and [d.setHours(h, m, s, ms)], returning the new
    time value. *)
Definition setDate (t n : Z) : Z :=
  MakeDate (MakeDay (getFullYear t) (getMonth t) n) (TimeWithinDay t).
Definition setHours (t h m s ms : Z) : Z :=
  MakeDate (Day t) (((h * 60 + m) * 60 + s) * 1000 + ms).
(** [d.setMonth(month, date)] and [d.setFullYear(year, month, date)]. *)
Definition setMonth (t month date : Z) : Z :=
  MakeDate (MakeDay (getFullYear t) month date) (TimeWithinDay t).
Definition setFullYear (t year month date : Z) : Z :=
  MakeDate (MakeDay year month date) (TimeWithinDay t).

(** date-fns [startOfMonth]: [setDate(1); setHours(0, 0, 0, 0)]. *)
Definition startOfMonth (t : Z) : Z := setHours (setDate t 1) 0 0 0 0.

(** date-fns [endOfMonth]:
    [setFullYear(getFullYear(), getMonth() + 1, 0); setHours(23, 59, 59, 999)]. *)
Definition endOfMonth (t : Z) : Z :=
  let month := getMonth t in
  setHours (setFullYear t (getFullYear t) (month + 1) 0) 23 59 59 999.

(** date-fns [addMonths]: the day of the month is kept unless the desired
    month is shorter, in which case its last day is taken. *)
Definition addMonths (t amount : Z) : Z :=
  if amount =? 0 then t
  else
    let dayOfMonth := getDate t in
    let endOfDesiredMonth := setMonth t (getMonth t + amount + 1) 0 in
    let daysInMonth := getDate endOfDesiredMonth in
    if dayOfMonth >=? daysInMonth then endOfDesiredMonth
    else setFullYear t (getFullYear endOfDesiredMonth)
                       (getMonth endOfDesiredMonth) dayOfMonth.

Definition subMonths (t amount : Z) : Z := addMonths t (- amount).

(** date-fns [startOfDay] and [differenceInCalendarDays]. *)
Definition startOfDay (t : Z) : Z := setHours t 0 0 0 0.
Definition differenceInCalendarDays (l r : Z) : Z :=
  (startOfDay l - startOfDay r) / msPerDay.

(** The comparison used by [differenceInDays]: year, month, date, hours,
    minutes, seconds and milliseconds in turn, that is, the time values. *)
Definition compareLocalAsc (l r : Z) : Z := Z.sgn (l - r).

(** date-fns [differenceInDays]: the number of full days between [r] and
    [l], truncated towards zero. *)
Definition differenceInDays (l r : Z) : Z :=
  let sign := compareLocalAsc l r in
  let difference := Z.abs (differenceInCalendarDays l r) in
  let l' := setDate l (getDate l - sign * difference) in
  let isLastDayNotFull := compareLocalAsc l' r =? - sign in
  sign * (difference - (if isLastDayNotFull then 1 else 0)).

(** date-fns [isWithinInterval]: both ends belong to the interval. *)
Record Interval : Type := { start : Z; end_ : Z }.
Definition isWithinInterval (t : Z) (i : Interval) : bool :=
  (start i <=? t) && (t <=? end_ i).

(** date-fns [eachDayOfInterval]: the start of every day from the day of
    [start] up to [end].  The loop
    [while (currentDate.getTime() <= endTime)] advances by one day per
    turn; [fuel] bounds the number of turns ([eachDayLoop_fuel] shows that
    the bound given by [eachDayOfInterval] is never the reason to stop).
    The library rejects an interval whose start lies after its end; the
    analytics never builds one. *)
Fixpoint eachDayLoop (fuel : nat) (currentDate endTime : Z) : list Z :=
  match fuel with
  | O => []
  | S fuel' =>
      if currentDate <=? endTime
      then currentDate
             :: eachDayLoop fuel'
                  (setHours (setDate currentDate (getDate currentDate + 1)) 0 0 0 0)
                  endTime
      else []
  end.

Definition eachDayOfInterval (i : Interval) : list Z :=
  let currentDate := setHours (start i) 0 0 0 0 in
  eachDayLoop (Z.to_nat (Day (end_ i) - Day (start i) + 1)) currentDate (end_ i).

(** [new Date(v)] for a number [v]: [TimeClip] makes the date invalid
    when [v] lies beyond 8.64e15 ms, and drops the fraction otherwise. *)
Inductive JsDate : Type :=
  | ValidDate (t : Z)
  | InvalidDate.

Definition maxTime : Z := 8640000000000000.

Definition truncate (v : Q) : Z :=
  if Qle_bool 0 v then Qfloor v else Qceiling v.

Definition newDateOfNumber (v : Q) : JsDate :=
  if Qle_bool (Qabs v) (inject_Z maxTime) then ValidDate (truncate v)
  else InvalidDate.

End DateFns.

(** *** Formatting *)

Module Format.
Import DateFns.
Local Open Scope string_scope.

(** [String(n)] for an integer. *)
Definition toString (n : Z) : string := NilZero.string_of_int (Z.to_int n).

Fixpoint repeatChar (c : string) (n : nat) : string :=
  match n with
  | O => ""
  | S n' => c ++ repeatChar c n'
  end.

Definition padStart (s : string) (targetLength : nat) (c : string) : string :=
  repeatChar c (targetLength - String.length s) ++ s.

(** date-fns [addLeadingZeros]. *)
Definition addLeadingZeros (number : Z) (targetLength : nat) : string :=
  let sign := if (number <? 0)%Z then "-" else "" in
  sign ++ padStart (toString (Z.abs number)) targetLength "0".

Definition monthAbbreviations : list string :=
  ["Jan"; "Feb"; "Mar"; "Apr"; "May"; "Jun";
   "Jul"; "Aug"; "Sep"; "Oct"; "Nov"; "Dec"].

(** [format(d, 'MMM dd')]. *)
Definition format_MMM_dd (t : Z) : string :=
  nth (Z.to_nat (getMonth t)) monthAbbreviations ""
  ++ " " ++ addLeadingZeros (getDate t) 2.

(** [format(d, 'yyyy-MM-dd')].  The text is only ever compared with other
    texts of the same pattern, sorted, and parsed back by [new Date(text)];
    it is represented by its three numeric fields.  For the years 0001 to
    9999 the zero-padded text and the triple determine each other, and the
    order of the texts is the lexicographic order of the triples. *)
Record DateKey : Type := { year : Z; month : Z; dayOfMonth : Z }.

Definition format_yyyy_MM_dd (t : Z) : DateKey :=
  {| year := getFullYear t; month := getMonth t + 1; dayOfMonth := getDate t |}.

(** [a === b] on two such texts. *)
Definition keyEqb (a b : DateKey) : bool :=
  ((year a =? year b) && (month a =? month b)
   && (dayOfMonth a =? dayOfMonth b))%Z.

(** [a <= b] in the order used by [Array.prototype.sort()] on texts. *)
Definition keyLeb (a b : DateKey) : bool :=
  (if year a =? year b then
     if month a =? month b then dayOfMonth a <=? dayOfMonth b
     else month a <? month b
   else year a <? year b)%Z.

(** [new Date('yyyy-MM-dd')]: midnight UTC of that day. *)
Definition newDate (k : DateKey) : Z :=
  MakeDate (MakeDay (year k) (month k - 1) (dayOfMonth k)) 0.

End Format.

(** *** Arrays *)

Module JsArray.

Section Generic.
Context {A : Type}.

(** [Array.prototype.sort(cmp)] is stable; [leb a b] stands for
    [cmp(a, b) <= 0]. *)
Fixpoint insertSorted (leb : A -> A -> bool) (x : A) (l : list A) : list A :=
  match l with
  | [] => [x]
  | y :: l' => if leb x y then x :: l else y :: insertSorted leb x l'
  end.

Fixpoint sort (leb : A -> A -> bool) (l : list A) : list A :=
  match l with
  | [] => []
  | x :: l' => insertSorted leb x (sort leb l')
  end.

(** [arr.reduce(f)] without an initial value: the first element starts the
    accumulation; on an empty array the call throws ([None]). *)
Definition reduce1 (f : A -> A -> A) (l : list A) : option A :=
  match l with
  | [] => None
  | x :: l' => Some (fold_left f l' x)
  end.

(** [[...new Set(arr)]]: first occurrences, in order. *)
Definition uniq (eqb : A -> A -> bool) (l : list A) : list A :=
  fold_left (fun seen x => if existsb (eqb x) seen then seen else seen ++ [x]) l [].

(** [arr.slice(-n)]: the last [n] elements. *)
Definition sliceLast (n : nat) (l : list A) : list A :=
  skipn (List.length l - n)%nat l.

(** [arr[i].field = g(arr[i].field)] for an index inside the array. *)
Fixpoint updateAt (i : nat) (g : A -> A) (l : list A) : list A :=
  match l, i with
  | [], _ => []
  | x :: l', O => g x :: l'
  | x :: l', S i' => x :: updateAt i' g l'
  end.

End Generic.

(** [arr.reduce((sum, x) => sum + f(x), 0)]. *)
Definition sumOf {A : Type} (f : A -> Q) (l : list A) : Q :=
  fold_left (fun sum x => sum + f x)%Q l 0%Q.

(** The same, with each addition rounded as the source performs it. *)
Definition sumOfD {A : Type} (f : A -> Q) (l : list A) : Q :=
  fold_left (fun sum x => Binary64.fadd sum (f x)) l 0%Q.

(** [arr.map((x, i) => f(x, i))], with indices counted from [i]. *)
Fixpoint mapi {A B : Type} (f : A -> nat -> B) (i : nat) (l : list A) : list B :=
  match l with
  | [] => []
  | x :: l' => f x i :: mapi f (S i) l'
  end.

End JsArray.

(** ** AdvancedAnalytics: the data model *)

Module AdvancedAnalytics.
Import DateFns Format JsArray.

Inductive TransactionType : Type := saved | withdrawn.

Definition isSaved (ty : TransactionType) : bool :=
  match ty with
  | saved => true
  | withdrawn => false
  end.

Module TransactionRecord.
Record t : Type :=
  { id : Z; type : TransactionType; amount : Q; date : Z }.
End TransactionRecord.

Module Jar.
Record t : Type :=
  { id : Z;
    name : JsString.t;
    target : Q;
    saved : Q;
    streak : Z;
    withdrawn : Q;
    currency : option string;
    records : option (list TransactionRecord.t);
    createdAt : option string }.
End Jar.

(** An element of [allTransactions]: the record, its date turned into a
    [Date], and the name of the jar it comes from. *)
Module Transaction.
Record t : Type :=
  { id : Z; type : TransactionType; amount : Q; date : Z; jarName : JsString.t }.
End Transaction.

Module Prediction.
Record t : Type :=
  { jarName : JsString.t;
    prediction : option JsDate; (* a Date, or null *)
    daysToGoal : option Z;      (* a number, or null *)
    avgPerDay : option Q }.     (* absent on the early return *)
End Prediction.

Module DayStat.
Record t : Type := { day : string; amount : Q; count : Z }.
End DayStat.

Module DailyPoint.
Record t : Type := { date : string; amount : Q }.
End DailyPoint.

Module JarSlice.
Record t : Type := { name : JsString.t; value : Q; color : option string }.
End JarSlice.

Module WeekPoint.
Record t : Type := { week : string; amount : Q }.
End WeekPoint.

(** [a > b] and [a < b] on numbers. *)
Definition Qgtb (a b : Q) : bool := negb (Qle_bool a b).
Definition Qltb (a b : Q) : bool := negb (Qle_bool b a).

Definition chartColors : list string :=
  ["#8b5cf6"; "#ec4899"; "#3b82f6"; "#10b981"; "#f59e0b"; "#ef4444"]%string.

Definition dayNames : list string :=
  ["Sunday"; "Monday"; "Tuesday"; "Wednesday"; "Thursday"; "Friday";
   "Saturday"]%string.

(** [jar.records || []]. *)
Definition recordsOf (jar : Jar.t) : list TransactionRecord.t :=
  match Jar.records jar with
  | Some rs => rs
  | None => []
  end.

(** [l.reduce((sum, t) => sum + t.amount, 0)]. *)
Definition sumAmounts (l : list Transaction.t) : Q :=
  sumOf Transaction.amount l.

Definition sumRecordAmounts (l : list TransactionRecord.t) : Q :=
  sumOf TransactionRecord.amount l.

Definition savedOn (t : Transaction.t) : bool := isSaved (Transaction.type t).

(** Quantities the statements below refer to: every record of every jar
    that is a saving, and the total of the [count] fields of the buckets. *)
Definition savedRecords (jars : list Jar.t) : list TransactionRecord.t :=
  filter (fun r => isSaved (TransactionRecord.type r)) (flat_map recordsOf jars).

Definition countTotal (stats : list DayStat.t) : Z :=
  fold_left (fun sum b => sum + DayStat.count b) stats 0.

(** ** The body of [useMemo] *)

Section Analytics.

Variable jars : list Jar.t.
Variable now : Z.

Definition currentMonth : Interval :=
  {| start := startOfMonth now; end_ := endOfMonth now |}.
Definition lastMonth : Interval :=
  {| start := startOfMonth (subMonths now 1);
     end_ := endOfMonth (subMonths now 1) |}.
Definition last30Days : list Z :=
  eachDayOfInterval {| start := subMonths now 1; end_ := now |}.

Definition tagged (jar : Jar.t) (record : TransactionRecord.t) : Transaction.t :=
  {| Transaction.id := TransactionRecord.id record;
     Transaction.type := TransactionRecord.type record;
     Transaction.amount := TransactionRecord.amount record;
     Transaction.date := TransactionRecord.date record;
     Transaction.jarName := Jar.name jar |}.

Definition allTransactions : list Transaction.t :=
  sort (fun a b => getTime (Transaction.date a) - getTime (Transaction.date b) <=? 0)
       (flat_map (fun jar => map (tagged jar) (recordsOf jar)) jars).

Definition currentMonthSavings : Q :=
  sumAmounts
    (filter (fun t => savedOn t && isWithinInterval (Transaction.date t) currentMonth)
            allTransactions).

Definition lastMonthSavings : Q :=
  sumAmounts
    (filter (fun t => savedOn t && isWithinInterval (Transaction.date t) lastMonth)
            allTransactions).

Definition velocityPercent : Q :=
  if Qgtb lastMonthSavings 0
  then ((currentMonthSavings - lastMonthSavings) / lastMonthSavings) * 100
  else if Qgtb currentMonthSavings 0 then 100 else 0.

(** The callback of [jars.map] in [predictions]; [byDate a b] is the
    comparator [(a, b) => a.date.getTime() - b.date.getTime()] read as
    "at most 0". *)
Definition byDate (a b : TransactionRecord.t) : bool :=
  getTime (TransactionRecord.date a) - getTime (TransactionRecord.date b) <=? 0.

Definition jarTransactions (jar : Jar.t) : list TransactionRecord.t :=
  sort byDate
       (filter (fun r => isSaved (TransactionRecord.type r)) (recordsOf jar)).

Definition recentTransactions (jar : Jar.t) : list TransactionRecord.t :=
  sliceLast 10 (jarTransactions jar).

Definition noPrediction (jar : Jar.t) : Prediction.t :=
  {| Prediction.jarName := Jar.name jar;
     Prediction.prediction := None;
     Prediction.daysToGoal := None;
     Prediction.avgPerDay := None |}.

(** [now.getTime() + daysToGoal * 24 * 60 * 60 * 1000], in doubles. *)
Definition predictedTime (d : Z) : Q :=
  Binary64.fadd (inject_Z (getTime now))
    (Binary64.fmul
       (Binary64.fmul (Binary64.fmul (Binary64.fmul (inject_Z d) 24) 60) 60)
       1000).

(** The branch on an empty [recentTransactions] is never taken: the slice
    of an array of two or more elements is not empty.  The source also
    computes [avgAmount], which it does not use.  The sum, the two
    quotients and the difference are those of doubles. *)
Definition predictJar (jar : Jar.t) : Prediction.t :=
  if (List.length (jarTransactions jar) <? 2)%nat then noPrediction jar
  else
    match recentTransactions jar with
    | [] => noPrediction jar
    | first :: _ =>
        let firstDate := TransactionRecord.date first in
        let lastDate :=
          TransactionRecord.date (last (recentTransactions jar) first) in
        let daysBetween :=
          let d := differenceInDays lastDate firstDate in
          if d =? 0 then 1 else d in
        let avgPerDay :=
          Binary64.fdiv
            (sumOfD TransactionRecord.amount (recentTransactions jar))
            (inject_Z daysBetween) in
        let remaining := Binary64.fsub (Jar.target jar) (Jar.saved jar) in
        let daysToGoal :=
          if Qgtb remaining 0 && Qgtb avgPerDay 0
          then Some (Qceiling (Binary64.fdiv remaining avgPerDay))
          else None in
        let predictedDate :=
          match daysToGoal with
          | Some d =>
              if d =? 0 then None
              else Some (newDateOfNumber (predictedTime d))
          | None => None
          end in
        {| Prediction.jarName := Jar.name jar;
           Prediction.prediction := predictedDate;
           Prediction.daysToGoal := daysToGoal;
           Prediction.avgPerDay := Some avgPerDay |}
    end.

(** The rate of [predictJar], and the jars for which none of its
    operations overflows. *)
Definition recentRate (jar : Jar.t) : Q :=
  match recentTransactions jar with
  | [] => 0
  | first :: _ =>
      let firstDate := TransactionRecord.date first in
      let lastDate :=
        TransactionRecord.date (last (recentTransactions jar) first) in
      let daysBetween :=
        let d := differenceInDays lastDate firstDate in
        if d =? 0 then 1 else d in
      Binary64.fdiv
        (sumOfD TransactionRecord.amount (recentTransactions jar))
        (inject_Z daysBetween)
  end.

Definition noOverflow (jar : Jar.t) : Prop :=
  Binary64.sumFinite 0
    (map TransactionRecord.amount (recentTransactions jar)) /\
  Binary64.finite (Jar.target jar - Jar.saved jar) /\
  Binary64.finite
    (Binary64.fsub (Jar.target jar) (Jar.saved jar) / recentRate jar).

Definition hasPrediction (p : Prediction.t) : bool :=
  match Prediction.prediction p with
  | Some _ => true
  | None => false
  end.

Definition predictions : list Prediction.t :=
  filter hasPrediction (map predictJar jars).

(** Savings by day of week. *)
Definition initialDayOfWeekStats : list DayStat.t :=
  map (fun i => {| DayStat.day := nth i dayNames ""%string;
                   DayStat.amount := 0;
                   DayStat.count := 0 |})
      (seq 0 7).

Definition addToBucket (t : Transaction.t) (b : DayStat.t) : DayStat.t :=
  {| DayStat.day := DayStat.day b;
     DayStat.amount := (DayStat.amount b + Transaction.amount t)%Q;
     DayStat.count := DayStat.count b + 1 |}.

(** The callback of [forEach], on the array it updates. *)
Definition bucketStep (stats : list DayStat.t) (t : Transaction.t)
  : list DayStat.t :=
  let dayIndex := getDay (Transaction.date t) in
  updateAt (Z.to_nat dayIndex) (addToBucket t) stats.

Definition dayOfWeekStats : list DayStat.t :=
  fold_left bucketStep (filter savedOn allTransactions) initialDayOfWeekStats.

Definition bestSavingDay : option DayStat.t :=
  reduce1 (fun best current =>
             if Qgtb (DayStat.amount current) (DayStat.amount best)
             then current else best)
          dayOfWeekStats.

Definition worstSavingDay : option DayStat.t :=
  reduce1 (fun worst current =>
             if Qltb (DayStat.amount current) (DayStat.amount worst)
                && (DayStat.count current >? 0)
             then current else worst)
          dayOfWeekStats.

(** Weekend against weekday. *)
Definition weekendSavings : Q :=
  sumAmounts
    (filter (fun t => savedOn t
                      && ((getDay (Transaction.date t) =? 0)
                          || (getDay (Transaction.date t) =? 6)))
            allTransactions).

Definition weekdaySavings : Q :=
  sumAmounts
    (filter (fun t => savedOn t
                      && (getDay (Transaction.date t) >? 0)
                      && (getDay (Transaction.date t) <? 6))
            allTransactions).

(** Streaks. *)
Definition savingDates : list DateKey :=
  map (fun t => format_yyyy_MM_dd (Transaction.date t))
      (filter savedOn allTransactions).

Definition uniqueDates : list DateKey :=
  sort keyLeb (uniq keyEqb savingDates).

(** The first loop, [for (i = uniqueDates.length - 1; i >= 0; i--)]: the
    list argument holds the dates still to visit, latest first. *)
Fixpoint currentStreakLoop (dates : list DateKey) (streakCount currentStreak : Z)
  : Z :=
  match dates with
  | [] => currentStreak
  | k :: dates' =>
      let date := newDate k in
      let expectedDate := setDate now (getDate now - streakCount) in
      if keyEqb (format_yyyy_MM_dd date) (format_yyyy_MM_dd expectedDate)
      then currentStreakLoop dates' (streakCount + 1) (currentStreak + 1)
      else currentStreak
  end.

Definition currentStreak : Z := currentStreakLoop (rev uniqueDates) 0 0.

(** The second loop, [for (i = 1; i < uniqueDates.length; i++)]: [prev] is
    [uniqueDates[i - 1]] and the list holds [uniqueDates[i]] onwards. *)
Fixpoint longestStreakLoop (prev : DateKey) (dates : list DateKey)
                           (tempStreak longestStreak : Z) : Z :=
  match dates with
  | [] => longestStreak
  | curr :: dates' =>
      let prevDate := newDate prev in
      let currDate := newDate curr in
      let diff := differenceInDays currDate prevDate in
      if diff =? 1
      then longestStreakLoop curr dates' (tempStreak + 1)
                             (Z.max longestStreak (tempStreak + 1))
      else longestStreakLoop curr dates' 1 longestStreak
  end.

Definition longestStreak : Z :=
  match uniqueDates with
  | [] => 0
  | first :: dates => longestStreakLoop first dates 1 0
  end.

(** Daily savings over the days of [last30Days]. *)
Definition dailySavingsData : list DailyPoint.t :=
  map (fun day =>
         let dayStr := format_yyyy_MM_dd day in
         let dayTotal :=
           sumAmounts
             (filter (fun t => savedOn t
                               && keyEqb (format_yyyy_MM_dd (Transaction.date t)) dayStr)
                     allTransactions) in
         {| DailyPoint.date := format_MMM_dd day; DailyPoint.amount := dayTotal |})
      last30Days.

(** Jar distribution for the pie chart; [jars.indexOf(jar)] is the
    position of the jar, the elements of [jars] being distinct objects. *)
Definition jarDistribution : list JarSlice.t :=
  mapi (fun jar index =>
          {| JarSlice.name :=
               if (15 <? JsString.length (Jar.name jar))%nat
               then JsString.append (JsString.substring 0 15 (Jar.name jar))
                                    (JsString.ofAscii "...")
               else Jar.name jar;
             JarSlice.value := Jar.saved jar;
             JarSlice.color :=
               nth_error chartColors (index mod List.length chartColors)%nat |})
       0%nat jars.

(** Weekly comparison: [for (let i = 3; i >= 0; i--)]. *)
Definition weekPoint (i : Z) : WeekPoint.t :=
  let weekStart := subMonths now 0 in
  let weekStart := setDate weekStart (getDate weekStart - i * 7) in
  let weekEnd := weekStart in
  let weekEnd := setDate weekEnd (getDate weekEnd + 6) in
  let weekSavings :=
    sumAmounts
      (filter (fun t => savedOn t
                        && isWithinInterval (Transaction.date t)
                             {| start := weekStart; end_ := weekEnd |})
              allTransactions) in
  {| WeekPoint.week := ("Week " ++ toString (4 - i))%string;
     WeekPoint.amount := weekSavings |}.

Definition weeklyData : list WeekPoint.t := map weekPoint [3; 2; 1; 0].

Definition totalSaved : Q := sumOf Jar.saved jars.

End Analytics.

(** The union of the records before it is sorted, for the statements. *)
Definition rawTransactions (jars : list Jar.t) : list Transaction.t :=
  flat_map (fun jar => map (tagged jar) (recordsOf jar)) jars.

(** The callbacks of the two [reduce] calls over the buckets, by name. *)
Definition bestStep (best current : DayStat.t) : DayStat.t :=
  if Qgtb (DayStat.amount current) (DayStat.amount best) then current else best.

Definition worstStep (worst current : DayStat.t) : DayStat.t :=
  if Qltb (DayStat.amount current) (DayStat.amount worst)
     && (DayStat.count current >? 0)
  then current else worst.

(** For the statements about streaks: [n] consecutive days ending at day
    [d], each the day of one of the keys. *)
Definition Run (keys : list DateKey) (d n : Z) : Prop :=
  forall j, 0 <= j < n -> exists k, In k keys /\ Day (newDate k) = d - j.

(** For the statements that need it: no "saved" amount is negative. *)
Definition nonNegativeSavings (jars : list Jar.t) : Prop :=
  forall t, In t (allTransactions jars) -> savedOn t = true ->
            (0 <= Transaction.amount t)%Q.

(** For the statements about the weekly series: the window of the loop
    turn [i], written with plain arithmetic on time values. *)
Definition weekWindow (now i : Z) : Interval :=
  {| start := now - i * 7 * msPerDay;
     end_ := now - i * 7 * msPerDay + 6 * msPerDay |}.

(** The value returned by the [useMemo] callback. *)
Record Analytics : Type :=
  { a_velocityPercent : Q;
    a_currentMonthSavings : Q;
    a_lastMonthSavings : Q;
    a_predictions : list Prediction.t;
    a_dayOfWeekStats : list DayStat.t;
    a_bestSavingDay : option DayStat.t;
    a_worstSavingDay : option DayStat.t;
    a_weekendSavings : Q;
    a_weekdaySavings : Q;
    a_currentStreak : Z;
    a_longestStreak : Z;
    a_dailySavingsData : list DailyPoint.t;
    a_jarDistribution : list JarSlice.t;
    a_weeklyData : list WeekPoint.t;
    a_totalSaved : Q }.

Definition analytics (jars : list Jar.t) (now : Z) : Analytics :=
  {| a_velocityPercent := velocityPercent jars now;
     a_currentMonthSavings := currentMonthSavings jars now;
     a_lastMonthSavings := lastMonthSavings jars now;
     a_predictions := predictions jars now;
     a_dayOfWeekStats := dayOfWeekStats jars;
     a_bestSavingDay := bestSavingDay jars;
     a_worstSavingDay := worstSavingDay jars;
     a_weekendSavings := weekendSavings jars;
     a_weekdaySavings := weekdaySavings jars;
     a_currentStreak := currentStreak jars now;
     a_longestStreak := longestStreak jars;
     a_dailySavingsData := dailySavingsData jars now;
     a_jarDistribution := jarDistribution jars;
     a_weeklyData := weeklyData jars now;
     a_totalSaved := totalSaved jars |}.

(** What the component shows: the "no data" card for an empty collection,
    the dashboard built from the bundle otherwise. *)
Inductive View : Type :=
  | NoData
  | Dashboard (a : Analytics) (currency : string).

Definition render (jars : list Jar.t) (now : Z) : View :=
  let a := analytics jars now in
  let currency :=
    match jars with
    | jar :: _ =>
        match Jar.currency jar with
        | Some c => if (String.length c =? 0)%nat then "$"%string else c
        | None => "$"%string
        end
    | [] => "$"%string
    end in
  if (List.length jars =? 0)%nat then NoData else Dashboard a currency.

End AdvancedAnalytics.

(** ** CircleVisualization: geometry of the ring *)

Module CircleGeometry.
Import CircleVisualization.
Local Open Scope Q_scope.

(** [circumference - (segment / 25) * circumference].  The circumference
    itself is [2 * Math.PI * radius], a multiple of a constant that is not
    rational: it is an argument here. *)
Definition dashOffset (circumference segment : Q) : Q :=
  circumference - (segment / 25) * circumference.

Definition redOffset (circumference progress : Q) : Q :=
  dashOffset circumference (redProgress progress).
Definition orangeOffset (circumference progress : Q) : Q :=
  dashOffset circumference (orangeProgress progress).
Definition blueOffset (circumference progress : Q) : Q :=
  dashOffset circumference (blueProgress progress).
Definition greenOffset (circumference progress : Q) : Q :=
  dashOffset circumference (greenProgress progress).

(** The angles of [rotate(...deg)] of the orange, blue and green circles. *)
Definition orangeRotation (progress : Q) : Q :=
  (redProgress progress / 25) * 90.
Definition blueRotation (progress : Q) : Q :=
  ((redProgress progress + orangeProgress progress) / 25) * 90.
Definition greenRotation (progress : Q) : Q :=
  ((redProgress progress + orangeProgress progress + blueProgress progress) / 25)
  * 90.

End CircleGeometry.

(** ** The sums as the source computes them *)

Module Doubles.
Import DateFns Format JsArray AdvancedAnalytics Binary64.

(** [l.reduce((sum, t) => sum + t.amount, 0)] on doubles. *)
Definition sumAmounts (l : list Transaction.t) : Q :=
  sumOfD Transaction.amount l.

Section Analytics.

Variable jars : list Jar.t.
Variable now : Z.

Definition currentMonthSavings : Q :=
  sumAmounts
    (filter (fun t => savedOn t
                      && isWithinInterval (Transaction.date t) (currentMonth now))
            (allTransactions jars)).

Definition lastMonthSavings : Q :=
  sumAmounts
    (filter (fun t => savedOn t
                      && isWithinInterval (Transaction.date t) (lastMonth now))
            (allTransactions jars)).

(** [dayOfWeekStats[dayIndex].amount += t.amount] and [.count += 1]. *)
Definition addToBucket (t : Transaction.t) (b : DayStat.t) : DayStat.t :=
  {| DayStat.day := DayStat.day b;
     DayStat.amount := fadd (DayStat.amount b) (Transaction.amount t);
     DayStat.count := DayStat.count b + 1 |}.

Definition bucketStep (stats : list DayStat.t) (t : Transaction.t)
  : list DayStat.t :=
  let dayIndex := getDay (Transaction.date t) in
  updateAt (Z.to_nat dayIndex) (addToBucket t) stats.

Definition dayOfWeekStats : list DayStat.t :=
  fold_left bucketStep (filter savedOn (allTransactions jars))
            initialDayOfWeekStats.

Definition weekendSavings : Q :=
  sumAmounts
    (filter (fun t => savedOn t
                      && ((getDay (Transaction.date t) =? 0)
                          || (getDay (Transaction.date t) =? 6)))
            (allTransactions jars)).

Definition weekdaySavings : Q :=
  sumAmounts
    (filter (fun t => savedOn t
                      && (getDay (Transaction.date t) >? 0)
                      && (getDay (Transaction.date t) <? 6))
            (allTransactions jars)).

Definition dailySavingsData : list DailyPoint.t :=
  map (fun day =>
         let dayStr := format_yyyy_MM_dd day in
         let dayTotal :=
           sumAmounts
             (filter (fun t => savedOn t
                               && keyEqb (format_yyyy_MM_dd (Transaction.date t)) dayStr)
                     (allTransactions jars)) in
         {| DailyPoint.date := format_MMM_dd day; DailyPoint.amount := dayTotal |})
      (last30Days now).

End Analytics.

(** Quantities the statements refer to: the "saved" transactions in date
    order and their total, and the total of the bucket amounts, each added
    up from the left in doubles. *)
Definition savedTransactions (jars : list Jar.t) : list Transaction.t :=
  filter savedOn (allTransactions jars).

Definition savedTotal (jars : list Jar.t) : Q :=
  sumAmounts (savedTransactions jars).


(** Whole amounts: every "saved" amount is an integer, and the absolute
    values add up to no more than 2^53, so that no addition of such
    amounts rounds. *)
Definition isWhole (q : Q) : Prop := (q == inject_Z (Qfloor q))%Q.

Definition zTotal {A : Type} (f : A -> Q) (l : list A) : Z :=
  fold_right (fun x s => Qfloor (f x) + s) 0 l.

Definition absTotal {A : Type} (f : A -> Q) (l : list A) : Z :=
  fold_right (fun x s => Z.abs (Qfloor (f x)) + s) 0 l.

Definition WholeSavings (jars : list Jar.t) : Prop :=
  Forall (fun t => isWhole (Transaction.amount t)) (savedTransactions jars) /\
  absTotal Transaction.amount (savedTransactions jars) <= 2 ^ 53.

End Doubles.

(** ** AdvancedAnalytics: texts and colours computed in the markup *)

Module DashboardView.
Import DateFns Format AdvancedAnalytics.
Local Open Scope string_scope.

Definition monthNames : list string :=
  ["January"; "February"; "March"; "April"; "May"; "June"; "July"; "August";
   "September"; "October"; "November"; "December"].

(** [format(d, 'MMMM dd, yyyy')]; the year token prints [1 - year] for a
    year that is not positive. *)
Definition format_MMMM_dd_yyyy (t : Z) : string :=
  let signedYear := getFullYear t in
  let year := (if signedYear >? 0 then signedYear else 1 - signedYear)%Z in
  nth (Z.to_nat (getMonth t)) monthNames ""
  ++ " " ++ addLeadingZeros (getDate t) 2
  ++ ", " ++ addLeadingZeros year 4.

(** What an expression of the markup yields: a text, or the [RangeError]
    that [format] throws on an invalid date. *)
Inductive Rendered : Type :=
  | Text (s : string)
  | Throws.

(** [pred.prediction ? format(pred.prediction, 'MMMM dd, yyyy')
                      : 'calculating...'].  Every [Date] object is truthy,
    an invalid one too. *)
Definition predictionDateText (pred : Prediction.t) : Rendered :=
  match Prediction.prediction pred with
  | Some (ValidDate t) => Text (format_MMMM_dd_yyyy t)
  | Some InvalidDate => Throws
  | None => Text "calculating..."
  end.

(** [pred.daysToGoal && ` (${pred.daysToGoal} days)`]: nothing is shown
    for [null], the bare number for 0, and otherwise the number between
    " (" and " days)".  How the number itself is printed is left open. *)
Inductive DaysText : Type :=
  | NothingShown
  | BareNumber (d : Z)
  | DaysInBrackets (d : Z).

Definition predictionDaysText (pred : Prediction.t) : DaysText :=
  match Prediction.daysToGoal pred with
  | None => NothingShown
  | Some d => if (d =? 0)%Z then BareNumber d else DaysInBrackets d
  end.

(** The [fill] of the cells of the day-of-week chart.  Reading [.day] of
    a missing best day would throw; the list is then empty. *)
Definition heatMapFills (a : Analytics) : list string :=
  match a_bestSavingDay a with
  | Some best =>
      map (fun entry =>
             if (DayStat.day entry =? DayStat.day best)%string
             then "#10b981" else "#6366f1")
          (a_dayOfWeekStats a)
  | None => []
  end.

(** The text under the velocity figure. *)
Inductive PaceMessage : Type := Faster | Slower | SamePace.

Definition paceMessage (a : Analytics) : PaceMessage :=
  if Qgtb (a_velocityPercent a) 0 then Faster
  else if Qltb (a_velocityPercent a) 0 then Slower
  else SamePace.

End DashboardView.

(** ** Sample inputs *)

Module Samples.
Import AdvancedAnalytics.

(** Monday 1 January 2024, 12:00 UTC, and one day in milliseconds. *)
Definition mondayNoon : Z := 1704110400000.
Definition oneDay : Z := 86400000.

Definition savedRecord (id : Z) (amount : Q) (date : Z) : TransactionRecord.t :=
  {| TransactionRecord.id := id;
     TransactionRecord.type := saved;
     TransactionRecord.amount := amount;
     TransactionRecord.date := date |}.

Definition jarWith (target saved : Q) (records : list TransactionRecord.t) : Jar.t :=
  {| Jar.id := 1;
     Jar.name := JsString.ofAscii "Holiday";
     Jar.target := target;
     Jar.saved := saved;
     Jar.streak := 0;
     Jar.withdrawn := 0;
     Jar.currency := None;
     Jar.records := Some records;
     Jar.createdAt := None |}.

(** One saving of 10 on that Monday. *)
Definition oneSaving : list Jar.t :=
  [jarWith 100 10 [savedRecord 1 10 mondayNoon]].

(** Five savings of 10 on consecutive days, half of the target reached. *)
Definition fiveSavings : Jar.t :=
  jarWith 100 50
    [savedRecord 1 10 mondayNoon;
     savedRecord 2 10 (mondayNoon + oneDay);
     savedRecord 3 10 (mondayNoon + 2 * oneDay);
     savedRecord 4 10 (mondayNoon + 3 * oneDay);
     savedRecord 5 10 (mondayNoon + 4 * oneDay)].

(** 20 saved in December 2023 and 10 in January 2024. *)
Definition twoMonths : list Jar.t :=
  [jarWith 100 30
     [savedRecord 1 20 (mondayNoon - 20 * oneDay);
      savedRecord 2 10 mondayNoon]].




(** The same jar under the name 'Wakacje w Lodzi 2025', the L written with
    a stroke (U+0141): 20 UTF-16 code units. *)
Definition lodzHoliday : Jar.t :=
  {| Jar.id := 2;
     Jar.name :=
       (JsString.ofAscii "Wakacje w " ++ [321%N]
        ++ JsString.ofAscii "odzi 2025")%list;
     Jar.target := Jar.target fiveSavings;
     Jar.saved := Jar.saved fiveSavings;
     Jar.streak := 0;
     Jar.withdrawn := 0;
     Jar.currency := None;
     Jar.records := Jar.records fiveSavings;
     Jar.createdAt := None |}.

End Samples.

(** * Properties *)

(** ** The calendar *)

Module DateLemmas.
Import DateFns.

Ltac bool_to_prop :=
  rewrite ?Z.eqb_eq, ?Z.eqb_neq, ?Z.ltb_lt, ?Z.ltb_ge, ?Z.leb_le, ?Z.leb_gt,
    ?Z.geb_le, ?Z.gtb_lt in *.

Lemma leap_cases (y : Z) :
  (isLeapYear y = true /\ y mod 4 = 0 /\ (y mod 100 <> 0 \/ y mod 400 = 0)) \/
  (isLeapYear y = false /\ (y mod 4 <> 0 \/ (y mod 100 = 0 /\ y mod 400 <> 0))).
Proof.
  unfold isLeapYear.
  destruct (y mod 4 =? 0) eqn:E4; destruct (y mod 100 =? 0) eqn:E100;
    destruct (y mod 400 =? 0) eqn:E400; cbn [andb orb negb]; bool_to_prop;
    intuition congruence.
Qed.

Lemma DayFromYear_succ (y : Z) :
  DayFromYear (y + 1) = DayFromYear y + (if isLeapYear y then 366 else 365).
Proof.
  destruct (leap_cases y) as [[-> H] | [-> H]]; unfold DayFromYear;
    Z.div_mod_to_equations; lia.
Qed.

Lemma DayFromYear_mono (y y' : Z) : y <= y' -> DayFromYear y <= DayFromYear y'.
Proof.
  intros H. replace y' with (y + Z.of_nat (Z.to_nat (y' - y))) by lia.
  induction (Z.to_nat (y' - y)) as [| k IH].
  - rewrite Z.add_0_r. lia.
  - rewrite Nat2Z.inj_succ. unfold Z.succ. rewrite Z.add_assoc, DayFromYear_succ.
    destruct (isLeapYear _); lia.
Qed.

Lemma YearFromDay_spec (n : Z) :
  DayFromYear (YearFromDay n) <= n < DayFromYear (YearFromDay n + 1).
Proof.
  unfold YearFromDay. set (y := 1970 + 400 * n / 146097).
  destruct (n <? DayFromYear y) eqn:E1;
    [| destruct (DayFromYear (y + 1) <=? n) eqn:E2]; bool_to_prop.
  - replace (y - 1 + 1) with y by lia. split; [| lia].
    subst y. unfold DayFromYear in *. Z.div_mod_to_equations. lia.
  - split; [lia |].
    subst y. unfold DayFromYear in *. Z.div_mod_to_equations. lia.
  - lia.
Qed.

Lemma YearFromDay_unique (n y : Z) :
  DayFromYear y <= n < DayFromYear (y + 1) -> YearFromDay n = y.
Proof.
  intros H. pose proof (YearFromDay_spec n) as S.
  destruct (Z.lt_trichotomy (YearFromDay n) y) as [L | [E | G]]; [| exact E |].
  - pose proof (DayFromYear_mono (YearFromDay n + 1) y). lia.
  - pose proof (DayFromYear_mono (y + 1) (YearFromDay n)). lia.
Qed.

Lemma DayWithinYear_bounds (n : Z) :
  0 <= DayWithinYear n < (if isLeapYear (YearFromDay n) then 366 else 365).
Proof.
  unfold DayWithinYear. pose proof (YearFromDay_spec n) as S.
  rewrite DayFromYear_succ in S. destruct (isLeapYear _); lia.
Qed.

Lemma MakeDay_in_range (y m d : Z) :
  0 <= m <= 11 -> MakeDay y m d = DayFromYear y + daysBeforeMonth y m + d - 1.
Proof.
  intros H. unfold MakeDay. rewrite Z.div_small, Z.mod_small, Z.add_0_r by lia.
  reflexivity.
Qed.

Lemma MakeDay_add_date (y m d k : Z) : MakeDay y m (d + k) = MakeDay y m d + k.
Proof. unfold MakeDay. lia. Qed.

Ltac month_cases m :=
  let H := fresh in
  assert (H : m = 0 \/ m = 1 \/ m = 2 \/ m = 3 \/ m = 4 \/ m = 5 \/ m = 6 \/
              m = 7 \/ m = 8 \/ m = 9 \/ m = 10 \/ m = 11) by lia;
  repeat (destruct H as [H | H]); subst m.

(** The fields of a day number are a valid date, and [MakeDay] maps them
    back to the day number. *)
Lemma fields_valid (n : Z) :
  0 <= MonthFromDay n <= 11 /\
  1 <= DateFromDay n <= daysInMonth (YearFromDay n) (MonthFromDay n).
Proof.
  pose proof (DayWithinYear_bounds n) as B.
  unfold DateFromDay, MonthFromDay.
  set (d := DayWithinYear n) in *. set (y := YearFromDay n) in *.
  unfold daysInMonth, daysBeforeMonth.
  destruct (isLeapYear y);
    repeat match goal with
    | |- context [if ?a <? ?b then _ else _] =>
        destruct (a <? b) eqn:?; bool_to_prop
    end; cbn match; lia.
Qed.

Lemma MakeDay_fields (n : Z) :
  MakeDay (YearFromDay n) (MonthFromDay n) (DateFromDay n) = n.
Proof.
  rewrite MakeDay_in_range by apply fields_valid.
  unfold DateFromDay, DayWithinYear. lia.
Qed.

Lemma fields_MakeDay (y m d : Z) :
  0 <= m <= 11 -> 1 <= d <= daysInMonth y m ->
  YearFromDay (MakeDay y m d) = y /\
  MonthFromDay (MakeDay y m d) = m /\
  DateFromDay (MakeDay y m d) = d.
Proof.
  intros Hm Hd. rewrite MakeDay_in_range by assumption.
  set (n := DayFromYear y + daysBeforeMonth y m + d - 1).
  assert (Hy : YearFromDay n = y).
  { apply YearFromDay_unique. rewrite DayFromYear_succ. subst n.
    unfold daysInMonth, daysBeforeMonth in *.
    month_cases m; destruct (isLeapYear y); cbn match in *; lia. }
  assert (Hmo : MonthFromDay n = m).
  { unfold MonthFromDay, DayWithinYear. rewrite Hy. subst n.
    unfold daysInMonth, daysBeforeMonth in *.
    month_cases m; destruct (isLeapYear y); cbn match in *;
      repeat match goal with
      | |- context [if ?a <? ?b then _ else _] =>
          destruct (a <? b) eqn:?; bool_to_prop; try lia
      end; reflexivity. }
  repeat split; [exact Hy | exact Hmo |].
  unfold DateFromDay, DayWithinYear. rewrite Hmo, Hy. subst n. lia.
Qed.

(** Time values and day numbers. *)
Lemma TimeWithinDay_bounds (t : Z) : 0 <= TimeWithinDay t < msPerDay.
Proof. unfold TimeWithinDay, msPerDay. apply Z.mod_pos_bound. lia. Qed.

Lemma Day_MakeDate (d tod : Z) : 0 <= tod < msPerDay -> Day (MakeDate d tod) = d.
Proof.
  unfold Day, MakeDate, msPerDay. intros H.
  rewrite Z.add_comm, Z.div_add by lia. rewrite Z.div_small by lia. lia.
Qed.

Lemma MakeDate_Day (t : Z) : MakeDate (Day t) (TimeWithinDay t) = t.
Proof.
  unfold MakeDate, Day, TimeWithinDay, msPerDay.
  pose proof (Z.div_mod t 86400000). lia.
Qed.

Lemma MakeDate_le_iff (a t : Z) : MakeDate a 0 <= t <-> a <= Day t.
Proof. unfold MakeDate, Day, msPerDay. Z.div_mod_to_equations. lia. Qed.

Lemma Day_setDate (t k : Z) : Day (setDate t k) = Day t + (k - getDate t).
Proof.
  unfold setDate. rewrite Day_MakeDate by apply TimeWithinDay_bounds.
  unfold getFullYear, getMonth, getDate.
  pose proof (MakeDay_fields (Day t)) as R.
  pose proof (MakeDay_add_date (YearFromDay (Day t)) (MonthFromDay (Day t))
                (DateFromDay (Day t)) (k - DateFromDay (Day t))) as S.
  replace (DateFromDay (Day t) + (k - DateFromDay (Day t))) with k in S by lia.
  lia.
Qed.

Lemma setDate_shift (t k : Z) : setDate t (getDate t + k) = t + k * msPerDay.
Proof.
  unfold setDate, getFullYear, getMonth, getDate.
  rewrite MakeDay_add_date, MakeDay_fields.
  pose proof (MakeDate_Day t) as T. unfold MakeDate in *. lia.
Qed.

Lemma setDate_back (t k : Z) : setDate t (getDate t - k) = t - k * msPerDay.
Proof.
  replace (getDate t - k) with (getDate t + - k) by lia.
  rewrite setDate_shift. lia.
Qed.

Lemma Day_setHours (t h m s ms : Z) :
  0 <= ((h * 60 + m) * 60 + s) * 1000 + ms < msPerDay ->
  Day (setHours t h m s ms) = Day t.
Proof. intros H. unfold setHours. now rewrite Day_MakeDate. Qed.

Lemma next_day (a : Z) :
  setHours (setDate (MakeDate a 0) (getDate (MakeDate a 0) + 1)) 0 0 0 0
  = MakeDate (a + 1) 0.
Proof.
  unfold setHours. rewrite Day_setDate, Day_MakeDate by (unfold msPerDay; lia).
  f_equal. lia.
Qed.

(** The day before the first of a month is the last day of a month. *)
Lemma last_day_of_previous_month (n : Z) :
  let e := n - DateFromDay n in
  DateFromDay e = daysInMonth (YearFromDay e) (MonthFromDay e) /\
  28 <= DateFromDay e <= 31.
Proof.
  intros e. pose proof (fields_valid n) as [Hm Hd].
  pose proof (MakeDay_fields n) as R. rewrite MakeDay_in_range in R by assumption.
  set (y := YearFromDay n) in *. set (m := MonthFromDay n) in *.
  clearbody y m.
  assert (Hdim : forall y' m', 0 <= m' <= 11 -> 28 <= daysInMonth y' m' <= 31).
  { intros y' m' H'. unfold daysInMonth.
    month_cases m'; destruct (isLeapYear y'); cbn match; lia. }
  assert (He : exists y' m', 0 <= m' <= 11 /\ e = MakeDay y' m' (daysInMonth y' m')).
  { destruct (Z.eq_dec m 0) as [E0 | N0].
    - exists (y - 1), 11. split; [lia |].
      rewrite MakeDay_in_range by lia.
      pose proof (DayFromYear_succ (y - 1)) as S.
      replace (y - 1 + 1) with y in S by lia.
      subst e. rewrite E0 in R. unfold daysInMonth, daysBeforeMonth in *.
      destruct (isLeapYear (y - 1)); cbn match in *; lia.
    - month_cases m; try lia;
        match type of R with
        | context [daysBeforeMonth y ?c] =>
            let c' := eval compute in (c - 1) in exists y, c'
        end;
        (split; [lia |]); rewrite MakeDay_in_range by lia; subst e;
        unfold daysInMonth, daysBeforeMonth in *;
        destruct (isLeapYear y); cbn match in *; lia. }
  destruct He as (y' & m' & Hm' & ->).
  destruct (fields_MakeDay y' m' (daysInMonth y' m') Hm') as (-> & -> & ->).
  - specialize (Hdim y' m' Hm'). lia.
  - split; [reflexivity | apply Hdim; assumption].
Qed.

Lemma DateFromDay_le_31 (n : Z) : 1 <= DateFromDay n <= 31.
Proof.
  pose proof (fields_valid n) as [Hm Hd].
  assert (daysInMonth (YearFromDay n) (MonthFromDay n) <= 31); [| lia].
  unfold daysInMonth. set (m := MonthFromDay n) in *. clearbody m.
  month_cases m; destruct (isLeapYear (YearFromDay n)); cbn match; lia.
Qed.

(** One month back: the day number moves back by the larger of the day
    of the month and the length of the previous month. *)
Lemma Day_subMonths_1 (t : Z) :
  let d := getDate t in
  let de := DateFromDay (Day t - d) in
  Day (subMonths t 1) = Day t - Z.max d de.
Proof.
  intros d de. unfold subMonths, addMonths.
  change (- (1) =? 0) with false. cbv iota.
  assert (E : Day (setMonth t (getMonth t + - (1) + 1) 0) = Day t - d).
  { unfold setMonth. rewrite Day_MakeDate by apply TimeWithinDay_bounds.
    replace (getMonth t + - (1) + 1) with (getMonth t) by lia.
    unfold getFullYear, getMonth.
    replace 0 with (getDate t + - getDate t) at 1 by lia.
    rewrite MakeDay_add_date. unfold getDate at 1. rewrite MakeDay_fields.
    subst d. lia. }
  set (eom := setMonth t (getMonth t + - (1) + 1) 0) in *.
  assert (Ede : getDate eom = de) by (unfold getDate at 1; now rewrite E).
  rewrite Ede. fold d.
  destruct (d >=? de) eqn:C; bool_to_prop.
  - rewrite E. lia.
  - unfold setFullYear. rewrite Day_MakeDate by apply TimeWithinDay_bounds.
    unfold getFullYear, getMonth. rewrite E.
    pose proof (MakeDay_fields (Day t - d)) as R. fold de in R.
    pose proof (MakeDay_add_date (YearFromDay (Day t - d))
                  (MonthFromDay (Day t - d)) de (d - de)) as S.
    replace (de + (d - de)) with d in S by lia. lia.
Qed.

Lemma subMonths_1_back (t : Z) : 28 <= Day t - Day (subMonths t 1) <= 31.
Proof.
  rewrite Day_subMonths_1.
  pose proof (last_day_of_previous_month (Day t)) as [_ H].
  pose proof (DateFromDay_le_31 (Day t)).
  unfold getDate. lia.
Qed.

(** The loop of [eachDayOfInterval] yields one date per day, and stops
    because it passes [endTime]: more fuel changes nothing. *)
Lemma eachDayLoop_length (fuel : nat) (a endTime : Z) :
  List.length (eachDayLoop fuel (MakeDate a 0) endTime)
  = Nat.min fuel (Z.to_nat (Day endTime - a + 1)).
Proof.
  revert a. induction fuel as [| fuel IH]; intros a; [reflexivity |].
  cbn [eachDayLoop].
  destruct (MakeDate a 0 <=? endTime) eqn:C; bool_to_prop.
  - apply MakeDate_le_iff in C. cbn [List.length].
    rewrite next_day, IH.
    replace (Day endTime - a + 1) with (Z.succ (Day endTime - (a + 1) + 1)) by lia.
    rewrite Z2Nat.inj_succ by lia. reflexivity.
  - assert (~ a <= Day endTime) as N by (rewrite <- MakeDate_le_iff; lia).
    replace (Z.to_nat (Day endTime - a + 1)) with O by lia.
    now rewrite Nat.min_0_r.
Qed.

Lemma eachDayLoop_fuel (fuel extra : nat) (a endTime : Z) :
  (Z.to_nat (Day endTime - a + 1) <= fuel)%nat ->
  eachDayLoop (fuel + extra) (MakeDate a 0) endTime
  = eachDayLoop fuel (MakeDate a 0) endTime.
Proof.
  revert a. induction fuel as [| fuel IH]; intros a H.
  - destruct extra; [reflexivity |]. cbn [Nat.add eachDayLoop].
    destruct (MakeDate a 0 <=? endTime) eqn:C; [| reflexivity]. bool_to_prop.
    apply MakeDate_le_iff in C. lia.
  - cbn [Nat.add eachDayLoop].
    destruct (MakeDate a 0 <=? endTime) eqn:C; [| reflexivity]. bool_to_prop.
    apply MakeDate_le_iff in C. rewrite next_day, IH; [reflexivity | lia].
Qed.

Lemma eachDayOfInterval_fuel (i : Interval) (extra : nat) :
  eachDayLoop (Z.to_nat (Day (end_ i) - Day (start i) + 1) + extra)
              (setHours (start i) 0 0 0 0) (end_ i)
  = eachDayOfInterval i.
Proof. unfold eachDayOfInterval, setHours. apply eachDayLoop_fuel. lia. Qed.

Lemma eachDayOfInterval_length (i : Interval) :
  List.length (eachDayOfInterval i) = Z.to_nat (Day (end_ i) - Day (start i) + 1).
Proof.
  unfold eachDayOfInterval, setHours. rewrite eachDayLoop_length.
  apply Nat.min_id.
Qed.

(** Forward in time, [differenceInDays] is the number of whole days. *)
Lemma differenceInDays_forward (l r : Z) :
  r <= l -> differenceInDays l r = (l - r) / msPerDay.
Proof.
  intros H.
  unfold differenceInDays, compareLocalAsc, differenceInCalendarDays, startOfDay,
    setHours.
  rewrite setDate_back.
  change (((0 * 60 + 0) * 60 + 0) * 1000 + 0) with 0.
  assert (Ed : (MakeDate (Day l) 0 - MakeDate (Day r) 0) / msPerDay = Day l - Day r).
  { unfold MakeDate, msPerDay. rewrite !Z.add_0_r, <- Z.mul_sub_distr_r.
    apply Z.div_mul. lia. }
  rewrite Ed.
  assert (Hd : 0 <= Day l - Day r).
  { unfold Day, msPerDay. Z.div_mod_to_equations. lia. }
  rewrite (Z.abs_eq _ Hd).
  destruct (Z.eq_dec l r) as [-> | N].
  - rewrite !Z.sub_diag. cbn [Z.sgn]. rewrite Z.div_0_l by (unfold msPerDay; lia).
    lia.
  - rewrite (Z.sgn_pos (l - r)) by lia.
    destruct (Z.sgn (l - 1 * (Day l - Day r) * msPerDay - r) =? - (1)) eqn:C;
      bool_to_prop.
    + apply Z.sgn_neg_iff in C. revert C Hd. unfold Day, msPerDay.
      intros. Z.div_mod_to_equations. lia.
    + assert (C' : ~ l - 1 * (Day l - Day r) * msPerDay - r < 0)
        by (rewrite <- Z.sgn_neg_iff; exact C).
      revert C' Hd. unfold Day, msPerDay. intros. Z.div_mod_to_equations. lia.
Qed.

(** A month starts no later and ends no earlier than any of its instants. *)
Lemma month_contains (t : Z) : startOfMonth t <= t <= endOfMonth t.
Proof.
  pose proof (fields_valid (Day t)) as [Hm Hd].
  pose proof (MakeDay_fields (Day t)) as R.
  pose proof (TimeWithinDay_bounds t) as B.
  pose proof (MakeDate_Day t) as T.
  split.
  - unfold startOfMonth, setHours. rewrite Day_setDate.
    unfold getDate, MakeDate in *. unfold msPerDay in *. lia.
  - unfold endOfMonth, setHours, setFullYear.
    rewrite Day_MakeDate by assumption.
    unfold getFullYear, getMonth.
    set (y := YearFromDay (Day t)) in *. set (m := MonthFromDay (Day t)) in *.
    clearbody y m.
    assert (Day t <= MakeDay y (m + 1) 0).
    { rewrite MakeDay_in_range in R by assumption.
      destruct (Z.eq_dec m 11) as [-> | N].
      - change (MakeDay y (11 + 1) 0) with (DayFromYear (y + 1) + 0 + 0 - 1).
        rewrite DayFromYear_succ.
        unfold daysInMonth, daysBeforeMonth in *.
        destruct (isLeapYear y); cbn match in *; lia.
      - rewrite MakeDay_in_range by lia.
        month_cases m; try lia;
          match goal with
          | |- context [?c + 1] =>
              let c' := eval compute in (c + 1) in change (c + 1) with c'
          end;
          unfold daysInMonth, daysBeforeMonth in *;
          destruct (isLeapYear y); cbn match in *; lia. }
    unfold MakeDate in *. unfold msPerDay in *. lia.
Qed.

End DateLemmas.

(** ** Arrays and sums *)

Module ArrayLemmas.
Import JsArray.

Section Generic.
Context {A : Type}.
Implicit Types (l : list A) (leb : A -> A -> bool).

Lemma insertSorted_perm leb (x : A) l : Permutation (insertSorted leb x l) (x :: l).
Proof.
  induction l as [| y l IH]; cbn [insertSorted]; [reflexivity |].
  destruct (leb x y); [reflexivity |].
  rewrite IH. apply perm_swap.
Qed.

Lemma sort_perm leb l : Permutation (sort leb l) l.
Proof.
  induction l as [| x l IH]; cbn [sort]; [reflexivity |].
  rewrite insertSorted_perm. now constructor.
Qed.

Lemma sort_length leb l : List.length (sort leb l) = List.length l.
Proof. apply Permutation_length, sort_perm. Qed.

Lemma filter_perm (f : A -> bool) l l' :
  Permutation l l' -> Permutation (filter f l) (filter f l').
Proof.
  induction 1 as [| x l l' _ IH | x y l | l l' l'' _ IH1 _ IH2]; cbn [filter].
  - reflexivity.
  - destruct (f x); [now constructor | exact IH].
  - destruct (f x), (f y); try reflexivity. apply perm_swap.
  - now transitivity (filter f l').
Qed.

(** Sortedness of the result, for a total and transitive comparison. *)
Section Sorted.
Variable leb : A -> A -> bool.
Hypothesis leb_total : forall a b, leb a b = true \/ leb b a = true.
Hypothesis leb_trans : forall a b c, leb a b = true -> leb b c = true -> leb a c = true.

Lemma insertSorted_sorted (x : A) l :
  StronglySorted (fun a b => leb a b = true) l ->
  StronglySorted (fun a b => leb a b = true) (insertSorted leb x l).
Proof.
  induction 1 as [| y l Hs IH Hy]; cbn [insertSorted].
  - repeat constructor.
  - destruct (leb x y) eqn:E.
    + constructor; [now constructor |].
      constructor; [exact E |].
      eapply Forall_impl; [| exact Hy]. intros z Hz. now apply leb_trans with y.
    + constructor; [exact IH |].
      assert (Hyx : leb y x = true) by (destruct (leb_total x y); congruence).
      eapply Permutation_Forall; [symmetry; apply insertSorted_perm |].
      now constructor.
Qed.

Lemma sort_sorted l : StronglySorted (fun a b => leb a b = true) (sort leb l).
Proof.
  induction l as [| x l IH]; cbn [sort]; [constructor |].
  now apply insertSorted_sorted.
Qed.

End Sorted.

Lemma StronglySorted_skipn (R : A -> A -> Prop) (n : nat) l :
  StronglySorted R l -> StronglySorted R (skipn n l).
Proof.
  revert l. induction n as [| n IH]; intros l H; [exact H |].
  destruct l as [| x l]; [constructor |]. cbn [skipn].
  apply IH. now inversion H.
Qed.

Lemma StronglySorted_head_last (R : A -> A -> Prop) (x : A) l :
  StronglySorted R (x :: l) -> l <> [] -> R x (last (x :: l) x).
Proof.
  intros H Hl. inversion H as [| ? ? _ Hall]; subst.
  assert (Hin : In (last (x :: l) x) l).
  { destruct l as [| y l]; [congruence |].
    change (last (x :: y :: l) x) with (last (y :: l) x).
    clear. revert y. induction l as [| z l IH]; intros y; [now left |].
    right. apply (IH z). }
  rewrite Forall_forall in Hall. now apply Hall.
Qed.

Lemma sliceLast_length (n : nat) l :
  List.length (sliceLast n l) = Nat.min n (List.length l).
Proof. unfold sliceLast. rewrite length_skipn. lia. Qed.

Lemma updateAt_length (i : nat) (g : A -> A) l :
  List.length (updateAt i g l) = List.length l.
Proof.
  revert i. induction l as [| x l IH]; intros [| i]; cbn [updateAt List.length];
    auto.
Qed.

End Generic.

(** Sums of rationals accumulated from the left. *)
Section Sums.
Context {A : Type}.
Variable f : A -> Q.

Lemma fold_sum_acc (l : list A) (a : Q) :
  (fold_left (fun s x => s + f x) l a == a + sumOf f l)%Q.
Proof.
  unfold sumOf. revert a. induction l as [| x l IH]; intros a; cbn [fold_left].
  - ring.
  - rewrite (IH (a + f x)%Q), (IH (0 + f x)%Q). ring.
Qed.

Lemma sumOf_cons (x : A) (l : list A) : (sumOf f (x :: l) == f x + sumOf f l)%Q.
Proof. unfold sumOf at 1. cbn [fold_left]. rewrite fold_sum_acc. ring. Qed.

Lemma sumOf_perm (l l' : list A) :
  Permutation l l' -> (sumOf f l == sumOf f l')%Q.
Proof.
  induction 1 as [| x l l' _ IH | x y l | l l' l'' _ IH1 _ IH2].
  - reflexivity.
  - now rewrite !sumOf_cons, IH.
  - rewrite !sumOf_cons. ring.
  - now transitivity (sumOf f l').
Qed.

End Sums.

End ArrayLemmas.

(** ** Rounding *)

Module Binary64Lemmas.
Import Binary64.

Lemma round64_proper (q q' : Q) : (q == q')%Q -> round64 q = round64 q'.
Proof. intros H. unfold round64. now rewrite (Qred_complete q q' H). Qed.

Lemma Qred_inject_Z (z : Z) : Qred (inject_Z z) = inject_Z z.
Proof.
  unfold Qred, inject_Z.
  pose proof (Z.ggcd_gcd z 1) as G. pose proof (Z.ggcd_correct_divisors z 1) as D.
  destruct (Z.ggcd z 1) as [g [aa bb]]. cbn [fst snd] in *.
  rewrite Z.gcd_1_r in G. subst g. destruct D as [Da Db].
  assert (Ea : aa = z) by lia. assert (Eb : bb = 1) by lia.
  rewrite Ea, Eb. reflexivity.
Qed.

Lemma roundHalfEven_den1 (x : Z) : roundHalfEven x 1 = x.
Proof.
  unfold roundHalfEven. rewrite Z.div_1_r, Z.mod_1_r. reflexivity.
Qed.

Lemma roundHalfEven_ge_floor (num den : Z) : num / den <= roundHalfEven num den.
Proof.
  unfold roundHalfEven. destruct (2 * (num mod den) ?= den); [| lia | lia].
  destruct (Z.even (num / den)); lia.
Qed.

Lemma floorLog2_int (a : Z) : 0 < a -> floorLog2 a 1 = Z.log2 a.
Proof.
  intros H. unfold floorLog2. rewrite Z.log2_1, Z.sub_0_r.
  pose proof (Z.log2_nonneg a) as Hn. pose proof (Z.log2_spec a H) as [Hs _].
  replace (0 <=? Z.log2 a) with true by (symmetry; apply Z.leb_le; lia).
  replace (1 * 2 ^ Z.log2 a <=? a) with true by (symmetry; apply Z.leb_le; lia).
  reflexivity.
Qed.

(** Integers of magnitude up to 2^53 are doubles: rounding keeps them. *)
Lemma round64_int (z : Z) :
  Z.abs z <= 2 ^ 53 -> (round64 (inject_Z z) == inject_Z z)%Q.
Proof.
  intros Hz. unfold round64. rewrite Qred_inject_Z. cbn [inject_Z Qnum Qden].
  destruct (z =? 0) eqn:E0; [apply Z.eqb_eq in E0; subst; reflexivity |].
  apply Z.eqb_neq in E0.
  assert (Ha : 0 < Z.abs z) by lia.
  rewrite (floorLog2_int _ Ha).
  pose proof (Z.log2_nonneg (Z.abs z)) as Hn.
  pose proof (Z.log2_spec _ Ha) as [Hlo Hhi].
  assert (HL : Z.log2 (Z.abs z) <= 53).
  { assert (Z.log2 (Z.abs z) < 54); [| lia].
    apply Z.log2_lt_pow2; [exact Ha |]. change (2 ^ 54) with (2 * 2 ^ 53). lia. }
  set (L := Z.log2 (Z.abs z)) in *.
  replace (Z.max (L - 52) (-1074)) with (L - 52) by lia.
  destruct (0 <=? L - 52) eqn:Ee.
  - apply Z.leb_le in Ee.
    assert (HL' : L = 52 \/ L = 53) by lia. destruct HL' as [-> | ->].
    + change (1 * 2 ^ (52 - 52)) with 1. rewrite roundHalfEven_den1.
      change (2 ^ (52 - 52)) with 1. unfold Qeq. cbn [inject_Z Qnum Qden]. lia.
    + change (2 ^ (53 - 52)) with 2. change (1 * 2) with 2.
      assert (Ez : Z.abs z = 2 ^ 53) by lia. rewrite Ez.
      change (roundHalfEven (2 ^ 53) 2) with (2 ^ 52).
      unfold Qeq. cbn [inject_Z Qnum Qden]. change (2 ^ 53) with 9007199254740992 in Ez.
      change (2 ^ 52) with 4503599627370496. lia.
  - apply Z.leb_gt in Ee. rewrite roundHalfEven_den1.
    assert (Hp : 0 < 2 ^ (- (L - 52))) by (apply Z.pow_pos_nonneg; lia).
    unfold Qeq. cbn [inject_Z Qnum Qden]. rewrite Z2Pos.id by exact Hp.
    set (P := 2 ^ (- (L - 52))) in *.
    replace (Z.sgn z * (Z.abs z * P)) with (z * P)
      by (rewrite Z.mul_assoc; f_equal; lia).
    lia.
Qed.

(** A larger integer rounds to an integer that is not below 2^53. *)
Lemma round64_big (z : Z) :
  2 ^ 53 <= z -> exists w, round64 (inject_Z z) = inject_Z w /\ 2 ^ 53 <= w.
Proof.
  intros Hz. unfold round64. rewrite Qred_inject_Z. cbn [inject_Z Qnum Qden].
  assert (Hpos : 0 < z) by (change (2 ^ 53) with 9007199254740992 in Hz; lia).
  replace (z =? 0) with false by (symmetry; apply Z.eqb_neq; lia).
  rewrite Z.abs_eq by lia. rewrite (floorLog2_int _ Hpos).
  pose proof (Z.log2_spec _ Hpos) as [Hlo Hhi].
  assert (HL : 53 <= Z.log2 z) by (apply Z.log2_le_pow2; [exact Hpos | exact Hz]).
  set (L := Z.log2 z) in *.
  replace (Z.max (L - 52) (-1074)) with (L - 52) by lia.
  replace (0 <=? L - 52) with true by (symmetry; apply Z.leb_le; lia).
  rewrite (Z.sgn_pos z Hpos).
  eexists. split; [reflexivity |].
  assert (Hp : 0 < 2 ^ (L - 52)) by (apply Z.pow_pos_nonneg; lia).
  assert (Hsplit : 2 ^ L = 2 ^ (L - 52) * 2 ^ 52).
  { rewrite <- Z.pow_add_r by lia. f_equal. lia. }
  assert (Hm : 2 ^ 52 <= roundHalfEven z (1 * 2 ^ (L - 52))).
  { etransitivity; [| apply roundHalfEven_ge_floor].
    rewrite Z.mul_1_l. apply Z.div_le_lower_bound; [exact Hp | lia]. }
  assert (Hge : 2 ^ 1 <= 2 ^ (L - 52)) by (apply Z.pow_le_mono_r; lia).
  change (2 ^ 1) with 2 in Hge.
  change (2 ^ 53) with (2 ^ 52 * 2). change (2 ^ 52) with 4503599627370496 in *.
  nia.
Qed.

Lemma round64_nonneg (q : Q) : (0 <= q)%Q -> (0 <= round64 q)%Q.
Proof.
  intros Hq. unfold round64.
  assert (Hn : 0 <= Qnum (Qred q)).
  { rewrite <- (Qred_correct q) in Hq. unfold Qle in Hq. cbn in Hq. lia. }
  set (r := Qred q) in *. destruct (Qnum r =? 0) eqn:E0; [apply Qle_refl |].
  apply Z.eqb_neq in E0. rewrite Z.sgn_pos, Z.abs_eq by lia.
  set (e := Z.max _ _).
  assert (Hfl : forall num den, 0 <= num -> 0 < den -> 0 <= roundHalfEven num den).
  { intros num den H1 H2. etransitivity; [| apply roundHalfEven_ge_floor].
    apply Z.div_pos; lia. }
  destruct (0 <=? e) eqn:Ee.
  - apply Z.leb_le in Ee.
    assert (0 < 2 ^ e) by (apply Z.pow_pos_nonneg; lia).
    assert (0 <= roundHalfEven (Qnum r) (Z.pos (Qden r) * 2 ^ e))
      by (apply Hfl; [lia | nia]).
    unfold Qle. cbn [inject_Z Qnum Qden]. nia.
  - apply Z.leb_gt in Ee.
    assert (0 < 2 ^ (- e)) by (apply Z.pow_pos_nonneg; lia).
    assert (0 <= roundHalfEven (Qnum r * 2 ^ (- e)) (Z.pos (Qden r)))
      by (apply Hfl; [nia | lia]).
    unfold Qle. cbn [Qnum Qden]. lia.
Qed.

Lemma Qceiling_nonneg (q : Q) : (0 <= q)%Q -> 0 <= Qceiling q.
Proof.
  intros H. pose proof (Qle_ceiling q) as C.
  assert (H0 : (inject_Z 0 <= inject_Z (Qceiling q))%Q)
    by (eapply Qle_trans; [exact H | exact C]).
  now rewrite <- Zle_Qle in H0.
Qed.

Lemma fdiv_nonneg (a b : Q) : (0 <= a)%Q -> (0 < b)%Q -> (0 <= fdiv a b)%Q.
Proof.
  intros Ha Hb. apply round64_nonneg.
  apply Qle_shift_div_l; [exact Hb |]. now rewrite Qmult_0_l.
Qed.

(** Rounding an integer that is not negative: exact up to 2^53, and not
    below 2^53 beyond. *)
Lemma round64_int_cases (q : Q) (z : Z) :
  (q == inject_Z z)%Q -> 0 <= z ->
  exists w, (round64 q == inject_Z w)%Q /\ exactOrBig z w.
Proof.
  intros E Hz. rewrite (round64_proper _ _ E).
  destruct (Z_le_gt_dec z (2 ^ 53)) as [L | G].
  - exists z. split; [apply round64_int; lia | left; auto].
  - destruct (round64_big z) as (w & Ew & Hw); [lia |].
    exists w. split; [rewrite Ew; reflexivity | right; split; lia].
Qed.

Lemma fmul_int_cases (x : Q) (w c : Z) :
  (x == inject_Z w)%Q -> 0 <= w -> 0 <= c ->
  exists w', (fmul x (inject_Z c) == inject_Z w')%Q /\ exactOrBig (w * c) w'.
Proof.
  intros E Hw Hc. unfold fmul. apply round64_int_cases; [| nia].
  rewrite E, inject_Z_mult. reflexivity.
Qed.

Lemma fadd_int_cases (x : Q) (n w : Z) :
  (x == inject_Z w)%Q -> 0 <= n -> 0 <= w ->
  exists w', (fadd (inject_Z n) x == inject_Z w')%Q /\ exactOrBig (n + w) w'.
Proof.
  intros E Hn Hw. unfold fadd. apply round64_int_cases; [| lia].
  rewrite E, inject_Z_plus. reflexivity.
Qed.

End Binary64Lemmas.

(** ** The progress ring *)

Module CircleProperties.
Import CircleVisualization.
Local Open Scope Q_scope.

Lemma Math_min_cases (a b : Q) :
  (a <= b /\ Math_min a b = a) \/ (b < a /\ Math_min a b = b).
Proof.
  unfold Math_min. destruct (Qle_bool a b) eqn:E.
  - left. split; [now apply Qle_bool_iff | reflexivity].
  - right. split; [| reflexivity].
    apply Qnot_le_lt. intro H. apply Qle_bool_iff in H. congruence.
Qed.

Lemma Math_max_cases (a b : Q) :
  (a <= b /\ Math_max a b = b) \/ (b < a /\ Math_max a b = a).
Proof.
  unfold Math_max. destruct (Qle_bool a b) eqn:E.
  - left. split; [now apply Qle_bool_iff | reflexivity].
  - right. split; [| reflexivity].
    apply Qnot_le_lt. intro H. apply Qle_bool_iff in H. congruence.
Qed.

Ltac split_minmax :=
  repeat match goal with
  | |- context [Math_max ?a ?b] =>
      let H := fresh "Hle" in let E := fresh "Emax" in
      destruct (Math_max_cases a b) as [[H E] | [H E]]; rewrite E in *
  end;
  repeat match goal with
  | |- context [Math_min ?a ?b] =>
      let H := fresh "Hle" in let E := fresh "Emin" in
      destruct (Math_min_cases a b) as [[H E] | [H E]]; rewrite E in *
  end.

(** C8. For a progress value between 0 and 100 each of the four colour
    segments lies between 0 and 25 and the four add up to the progress;
    above 100 they add up to 100. *)
Theorem segments_cover_progress (p : Q) :
  (0 <= p -> p <= 100 ->
     (0 <= redProgress p /\ redProgress p <= 25) /\
     (0 <= orangeProgress p /\ orangeProgress p <= 25) /\
     (0 <= blueProgress p /\ blueProgress p <= 25) /\
     (0 <= greenProgress p /\ greenProgress p <= 25) /\
     segmentSum p == p) /\
  (100 < p -> segmentSum p == 100).
Proof.
  unfold segmentSum, redProgress, orangeProgress, blueProgress, greenProgress.
  split; intros; split_minmax;
    repeat match goal with |- _ /\ _ => split end; lra.
Qed.

Lemma segments_cover_progress_witness :
  (0 <= 40 /\ 40 <= 100 /\ segmentSum 40 == 40) /\
  (100 < 120 /\ segmentSum 120 == 100).
Proof.
  split.
  - assert (H0 : 0 <= 40) by lra. assert (H1 : 40 <= 100) by lra.
    split; [exact H0 | split; [exact H1 |]].
    apply (proj1 (segments_cover_progress 40) H0 H1).
  - assert (H : 100 < 120) by lra.
    split; [exact H |]. apply (proj2 (segments_cover_progress 120) H).
Defined.

End CircleProperties.

(** ** The analytics bundle *)

Module AnalyticsProperties.
Import DateFns Format JsArray AdvancedAnalytics DateLemmas ArrayLemmas.

Lemma getDay_range (t : Z) : 0 <= getDay t < 7.
Proof. unfold getDay. apply Z.mod_pos_bound. lia. Qed.

Lemma sumOf_map {A B : Type} (f : B -> Q) (g : A -> B) (l : list A) :
  sumOf f (map g l) = sumOf (fun x => f (g x)) l.
Proof.
  unfold sumOf. generalize 0%Q.
  induction l as [| x l IH]; intros a; cbn [map fold_left]; auto.
Qed.

Lemma allTransactions_perm (jars : list Jar.t) :
  Permutation (allTransactions jars) (rawTransactions jars).
Proof. apply sort_perm. Qed.

Lemma saved_amounts_raw (jars : list Jar.t) :
  map Transaction.amount (filter savedOn (rawTransactions jars))
  = map TransactionRecord.amount (savedRecords jars).
Proof.
  unfold rawTransactions, savedRecords.
  induction jars as [| jar jars IH]; [reflexivity |].
  cbn [flat_map]. rewrite !filter_app, !map_app, IH. f_equal.
  induction (recordsOf jar) as [| r rs IHr]; [reflexivity |].
  cbn [map filter]. unfold savedOn at 1. cbn [tagged Transaction.type].
  destruct (isSaved (TransactionRecord.type r)); cbn [map]; now rewrite IHr.
Qed.

Lemma saved_total (jars : list Jar.t) :
  (sumAmounts (filter savedOn (allTransactions jars))
   == sumRecordAmounts (savedRecords jars))%Q.
Proof.
  unfold sumAmounts, sumRecordAmounts.
  rewrite (sumOf_perm _ _ _ (filter_perm savedOn _ _ (allTransactions_perm jars))).
  rewrite <- (map_id (filter savedOn (rawTransactions jars))).
  rewrite <- (sumOf_map (fun q : Q => q) Transaction.amount), map_id.
  rewrite saved_amounts_raw, sumOf_map. reflexivity.
Qed.


(** One update of the buckets, at an index inside the array. *)
Lemma countTotal_acc (stats : list DayStat.t) (a : Z) :
  fold_left (fun sum b => sum + DayStat.count b) stats a = a + countTotal stats.
Proof.
  unfold countTotal. revert a.
  induction stats as [| b stats IH]; intros a; cbn [fold_left]; [lia |].
  rewrite (IH (a + DayStat.count b)), (IH (0 + DayStat.count b)). lia.
Qed.

Lemma countTotal_cons (b : DayStat.t) (stats : list DayStat.t) :
  countTotal (b :: stats) = DayStat.count b + countTotal stats.
Proof. unfold countTotal at 1. cbn [fold_left]. rewrite countTotal_acc. lia. Qed.

Lemma addToBucket_update (t : Transaction.t) (i : nat) (stats : list DayStat.t) :
  (i < List.length stats)%nat ->
  let stats' := updateAt i (addToBucket t) stats in
  map DayStat.day stats' = map DayStat.day stats /\
  countTotal stats' = countTotal stats + 1 /\
  (sumOf DayStat.amount stats' == sumOf DayStat.amount stats + Transaction.amount t)%Q.
Proof.
  revert i. induction stats as [| b stats IH]; intros i Hi; cbn [List.length] in Hi;
    [lia |].
  destruct i as [| i]; cbn [updateAt]; cbv zeta.
  - cbn [map]. rewrite !countTotal_cons, !sumOf_cons.
    cbn [addToBucket DayStat.day DayStat.count DayStat.amount].
    repeat split; [lia | ring].
  - destruct (IH i ltac:(lia)) as (Hd & Hc & Ha).
    cbn [map]. rewrite !countTotal_cons, !sumOf_cons, Hd, Hc, Ha.
    repeat split; [lia | ring].
Qed.

Lemma bucket_fold (txs : list Transaction.t) (stats : list DayStat.t) :
  List.length stats = 7%nat ->
  let stats' := fold_left bucketStep txs stats in
  map DayStat.day stats' = map DayStat.day stats /\
  countTotal stats' = countTotal stats + Z.of_nat (List.length txs) /\
  (sumOf DayStat.amount stats' == sumOf DayStat.amount stats + sumAmounts txs)%Q.
Proof.
  revert stats. induction txs as [| t txs IH]; intros stats Hlen; cbv zeta.
  - cbn [fold_left List.length]. repeat split; [lia |].
    unfold sumAmounts, sumOf at 3. cbn [fold_left]. ring.
  - cbn [fold_left]. pose proof (getDay_range (Transaction.date t)) as R.
    destruct (addToBucket_update t (Z.to_nat (getDay (Transaction.date t))) stats
                ltac:(lia)) as (Hd & Hc & Ha).
    destruct (IH (bucketStep stats t)) as (Hd' & Hc' & Ha');
      [unfold bucketStep; now rewrite updateAt_length |].
    fold (bucketStep stats t) in Hd, Hc, Ha.
    rewrite Hd', Hc', Ha', Hd, Hc, Ha. unfold sumAmounts. rewrite sumOf_cons.
    cbn [List.length]. repeat split; [lia | ring].
Qed.

(** C7. For the empty jar collection every number of the bundle is 0, the
    predictions and the jar distribution are empty, and every point of the
    daily and of the weekly series has amount 0; the component shows the
    "no data" card. *)
Theorem empty_collection_bundle (now : Z) :
  let a := analytics [] now in
  a_velocityPercent a = 0%Q /\
  a_currentMonthSavings a = 0%Q /\
  a_lastMonthSavings a = 0%Q /\
  a_weekendSavings a = 0%Q /\
  a_weekdaySavings a = 0%Q /\
  a_currentStreak a = 0 /\
  a_longestStreak a = 0 /\
  a_totalSaved a = 0%Q /\
  a_predictions a = [] /\
  a_jarDistribution a = [] /\
  Forall (fun p => DailyPoint.amount p = 0%Q) (a_dailySavingsData a) /\
  Forall (fun w => WeekPoint.amount w = 0%Q) (a_weeklyData a) /\
  render [] now = NoData.
Proof.
  cbv zeta. cbn [analytics a_velocityPercent a_currentMonthSavings
    a_lastMonthSavings a_weekendSavings a_weekdaySavings a_currentStreak
    a_longestStreak a_totalSaved a_predictions a_jarDistribution
    a_dailySavingsData a_weeklyData].
  repeat match goal with |- _ /\ _ => split end; try reflexivity.
  - unfold dailySavingsData. apply Forall_forall. intros p Hp.
    apply in_map_iff in Hp as (d & <- & _). reflexivity.
  - unfold weeklyData. apply Forall_forall. intros w Hw.
    apply in_map_iff in Hw as (i & <- & _). reflexivity.
Qed.

(** C3 (as the code has it). The daily series has one point per calendar
    day from one month before [now] up to [now]: between 29 and 32 points,
    depending on the month; the weekly series has 4 points. *)
Theorem series_lengths (jars : list Jar.t) (now : Z) :
  List.length (dailySavingsData jars now)
  = Z.to_nat (Day now - Day (subMonths now 1) + 1) /\
  (29 <= List.length (dailySavingsData jars now) <= 32)%nat /\
  List.length (weeklyData jars now) = 4%nat.
Proof.
  assert (E : List.length (dailySavingsData jars now)
              = Z.to_nat (Day now - Day (subMonths now 1) + 1)).
  { unfold dailySavingsData, last30Days.
    rewrite length_map, eachDayOfInterval_length. reflexivity. }
  pose proof (subMonths_1_back now) as B.
  split; [exact E | split; [lia | reflexivity]].
Qed.

(** 15 January 2024, 12:00 UTC: the series runs from 15 December to
    15 January and has 32 points, not 31. *)
Lemma daily_series_not_31 :
  List.length (dailySavingsData [] 1705320000000) = 32%nat /\
  ~ (forall (jars : list Jar.t) (now : Z),
       List.length (dailySavingsData jars now) = 31%nat /\
       List.length (weeklyData jars now) = 4%nat).
Proof.
  split; [vm_compute; reflexivity |].
  intros H. destruct (H [] 1705320000000) as [H31 _].
  vm_compute in H31. discriminate H31.
Qed.

(** Comparisons of numbers. *)
Lemma Qgtb_true (a b : Q) : Qgtb a b = true <-> (b < a)%Q.
Proof.
  unfold Qgtb. rewrite negb_true_iff. split.
  - intros E. apply Qnot_le_lt. intros H. apply Qle_bool_iff in H. congruence.
  - intros H. destruct (Qle_bool a b) eqn:E; [| reflexivity].
    apply Qle_bool_iff in E. exfalso. now apply (Qlt_not_le b a).
Qed.

Lemma Qgtb_false (a b : Q) : Qgtb a b = false <-> ~ (b < a)%Q.
Proof.
  rewrite <- Qgtb_true. destruct (Qgtb a b); split; congruence.
Qed.

Lemma isWithinInterval_iff (t : Z) (i : Interval) :
  isWithinInterval t i = true <-> start i <= t <= end_ i.
Proof. unfold isWithinInterval. rewrite andb_true_iff, !Z.leb_le. tauto. Qed.

(** C4. The velocity is [(current - last) / last * 100] when last
    month's total is positive; otherwise 100 when this month's total is
    positive, and 0 when both totals are 0.  A transaction belongs to a
    month when its date lies between the start and the end of the month,
    both included; the start and the end themselves belong to it. *)
Theorem velocity_cases (jars : list Jar.t) (now : Z) :
  let current := currentMonthSavings jars now in
  let last := lastMonthSavings jars now in
  ((0 < last)%Q ->
     velocityPercent jars now = ((current - last) / last * 100)%Q) /\
  (~ (0 < last)%Q -> (0 < current)%Q -> velocityPercent jars now = 100%Q) /\
  ((last == 0)%Q -> (current == 0)%Q -> velocityPercent jars now = 0%Q) /\
  (forall (month : Interval) (t : Transaction.t),
     (savedOn t && isWithinInterval (Transaction.date t) month = true
      <-> savedOn t = true /\
          start month <= Transaction.date t <= end_ month)) /\
  current
  = sumAmounts
      (filter (fun t => savedOn t
                        && isWithinInterval (Transaction.date t)
                             {| start := startOfMonth now; end_ := endOfMonth now |})
              (allTransactions jars)) /\
  last
  = sumAmounts
      (filter (fun t => savedOn t
                        && isWithinInterval (Transaction.date t)
                             {| start := startOfMonth (subMonths now 1);
                                end_ := endOfMonth (subMonths now 1) |})
              (allTransactions jars)) /\
  isWithinInterval (startOfMonth now) (currentMonth now) = true /\
  isWithinInterval (endOfMonth now) (currentMonth now) = true /\
  isWithinInterval (startOfMonth (subMonths now 1)) (lastMonth now) = true /\
  isWithinInterval (endOfMonth (subMonths now 1)) (lastMonth now) = true.
Proof.
  cbv zeta. unfold velocityPercent.
  repeat match goal with |- _ /\ _ => split end.
  - intros H. apply Qgtb_true in H. now rewrite H.
  - intros Hl Hc. apply Qgtb_false in Hl. apply Qgtb_true in Hc.
    now rewrite Hl, Hc.
  - intros Hl Hc.
    assert (Hl' : Qgtb (lastMonthSavings jars now) 0 = false)
      by (apply Qgtb_false; rewrite Hl; apply Qlt_irrefl).
    assert (Hc' : Qgtb (currentMonthSavings jars now) 0 = false)
      by (apply Qgtb_false; rewrite Hc; apply Qlt_irrefl).
    now rewrite Hl', Hc'.
  - intros month t. rewrite andb_true_iff, isWithinInterval_iff. tauto.
  - reflexivity.
  - reflexivity.
  - pose proof (month_contains now). apply isWithinInterval_iff.
    cbn [currentMonth start end_]. lia.
  - pose proof (month_contains now). apply isWithinInterval_iff.
    cbn [currentMonth start end_]. lia.
  - pose proof (month_contains (subMonths now 1)). apply isWithinInterval_iff.
    cbn [lastMonth start end_]. lia.
  - pose proof (month_contains (subMonths now 1)). apply isWithinInterval_iff.
    cbn [lastMonth start end_]. lia.
Qed.

Lemma velocity_cases_witness :
  ((0 < lastMonthSavings Samples.twoMonths Samples.mondayNoon)%Q /\
   velocityPercent Samples.twoMonths Samples.mondayNoon
   = ((currentMonthSavings Samples.twoMonths Samples.mondayNoon
       - lastMonthSavings Samples.twoMonths Samples.mondayNoon)
      / lastMonthSavings Samples.twoMonths Samples.mondayNoon * 100)%Q) /\
  (~ (0 < lastMonthSavings Samples.oneSaving Samples.mondayNoon)%Q /\
   (0 < currentMonthSavings Samples.oneSaving Samples.mondayNoon)%Q /\
   velocityPercent Samples.oneSaving Samples.mondayNoon = 100%Q) /\
  ((lastMonthSavings [] Samples.mondayNoon == 0)%Q /\
   (currentMonthSavings [] Samples.mondayNoon == 0)%Q /\
   velocityPercent [] Samples.mondayNoon = 0%Q).
Proof.
  split; [| split].
  - assert (H : (0 < lastMonthSavings Samples.twoMonths Samples.mondayNoon)%Q)
      by (vm_compute; reflexivity).
    split; [exact H |].
    apply (proj1 (velocity_cases Samples.twoMonths Samples.mondayNoon) H).
  - assert (Hl : ~ (0 < lastMonthSavings Samples.oneSaving Samples.mondayNoon)%Q)
      by (vm_compute; discriminate).
    assert (Hc : (0 < currentMonthSavings Samples.oneSaving Samples.mondayNoon)%Q)
      by (vm_compute; reflexivity).
    split; [exact Hl | split; [exact Hc |]].
    apply (proj1 (proj2 (velocity_cases Samples.oneSaving Samples.mondayNoon)) Hl Hc).
  - assert (Hl : (lastMonthSavings [] Samples.mondayNoon == 0)%Q) by reflexivity.
    assert (Hc : (currentMonthSavings [] Samples.mondayNoon == 0)%Q) by reflexivity.
    split; [exact Hl | split; [exact Hc |]].
    apply (proj1 (proj2 (proj2 (velocity_cases [] Samples.mondayNoon))) Hl Hc).
Defined.


Lemma jarTransactions_sorted (jar : Jar.t) :
  StronglySorted
    (fun a b => TransactionRecord.date a <= TransactionRecord.date b)
    (jarTransactions jar).
Proof.
  assert (S : StronglySorted (fun a b => byDate a b = true) (jarTransactions jar)).
  { apply sort_sorted; unfold byDate, getTime; intros; bool_to_prop; lia. }
  revert S. generalize (jarTransactions jar).
  induction 1 as [| x l _ IH Hx]; constructor; [exact IH |].
  eapply Forall_impl; [| exact Hx].
  unfold byDate, getTime. intros; bool_to_prop; lia.
Qed.

Lemma newDateOfNumber_int (v : Q) (t : Z) :
  (v == inject_Z t)%Q ->
  newDateOfNumber v = if Z.abs t <=? maxTime then ValidDate t else InvalidDate.
Proof.
  intros E.
  assert (Ef : Qfloor v = t) by (rewrite E; apply Qfloor_Z).
  assert (Ec : Qceiling v = t) by (rewrite E; apply Qceiling_Z).
  assert (Eb : Qle_bool (Qabs v) (inject_Z maxTime) = (Z.abs t <=? maxTime)).
  { rewrite E. change (Qabs (inject_Z t)) with (inject_Z (Z.abs t)).
    unfold Qle_bool, inject_Z. cbn [Qnum Qden]. now rewrite !Z.mul_1_r. }
  unfold newDateOfNumber, truncate. rewrite Eb, Ef, Ec.
  destruct (Z.abs t <=? maxTime); [| reflexivity].
  now destruct (Qle_bool 0 v).
Qed.

(** [new Date(now.getTime() + d * 24 * 60 * 60 * 1000)]: the date [d] days
    after [now] while that is a time value of a Date, Invalid Date beyond. *)
Lemma predictedTime_cases (now d : Z) :
  0 <= now <= maxTime -> 1 <= d ->
  (now + d * msPerDay <= maxTime ->
     newDateOfNumber (predictedTime now d) = ValidDate (now + d * msPerDay)) /\
  (maxTime < now + d * msPerDay ->
     newDateOfNumber (predictedTime now d) = InvalidDate).
Proof.
  intros Hn Hd.
  assert (P : 2 ^ 53 = 9007199254740992) by reflexivity.
  unfold maxTime in *.
  destruct (Binary64Lemmas.fmul_int_cases (inject_Z d) d 24 (Qeq_refl _))
    as (w1 & E1 & C1); [lia | lia |].
  unfold Binary64.exactOrBig in C1. rewrite P in C1.
  destruct (Binary64Lemmas.fmul_int_cases _ w1 60 E1) as (w2 & E2 & C2);
    [lia | lia |].
  unfold Binary64.exactOrBig in C2. rewrite P in C2.
  destruct (Binary64Lemmas.fmul_int_cases _ w2 60 E2) as (w3 & E3 & C3);
    [lia | lia |].
  unfold Binary64.exactOrBig in C3. rewrite P in C3.
  destruct (Binary64Lemmas.fmul_int_cases _ w3 1000 E3) as (w4 & E4 & C4);
    [lia | lia |].
  unfold Binary64.exactOrBig in C4. rewrite P in C4.
  destruct (Binary64Lemmas.fadd_int_cases _ now w4 E4) as (wv & Ev & Cv);
    [lia | lia |].
  unfold Binary64.exactOrBig in Cv. rewrite P in Cv.
  pose proof (newDateOfNumber_int _ wv Ev) as R.
  unfold msPerDay. split; intros H.
  - assert (Ew : wv = now + d * 86400000) by lia.
    etransitivity; [exact R |]. rewrite Ew.
    replace (Z.abs (now + d * 86400000) <=? maxTime) with true; [reflexivity |].
    symmetry. apply Z.leb_le. unfold maxTime. lia.
  - etransitivity; [exact R |].
    replace (Z.abs wv <=? maxTime) with false; [reflexivity |].
    symmetry. apply Z.leb_gt. unfold maxTime. lia.
Qed.

(** What the callback returns for a jar with at least two savings.  The
    sum, the rate, the difference and the quotient are those of doubles. *)
Lemma predictJar_recent (now : Z) (jar : Jar.t) :
  (2 <= List.length (jarTransactions jar))%nat ->
  recentTransactions jar <> [] /\
  List.length (recentTransactions jar)
  = Nat.min 10 (List.length (jarTransactions jar)) /\
  forall first rest, recentTransactions jar = first :: rest ->
    let lst := last (first :: rest) first in
    let rate :=
      Binary64.fdiv
        (sumOfD TransactionRecord.amount (first :: rest))
        (inject_Z (Z.max 1 (differenceInDays (TransactionRecord.date lst)
                                             (TransactionRecord.date first)))) in
    let remaining := Binary64.fsub (Jar.target jar) (Jar.saved jar) in
    let days := Qceiling (Binary64.fdiv remaining rate) in
    TransactionRecord.date first <= TransactionRecord.date lst /\
    Prediction.avgPerDay (predictJar now jar) = Some rate /\
    ((0 < remaining)%Q -> (0 < rate)%Q ->
       Prediction.daysToGoal (predictJar now jar) = Some days /\
       0 <= days /\
       (days = 0 -> Prediction.prediction (predictJar now jar) = None) /\
       (1 <= days ->
          Prediction.prediction (predictJar now jar)
          = Some (newDateOfNumber (predictedTime now days)))) /\
    (~ ((0 < remaining)%Q /\ (0 < rate)%Q) ->
       Prediction.daysToGoal (predictJar now jar) = None /\
       Prediction.prediction (predictJar now jar) = None).
Proof.
  intros Hlen.
  assert (Hrl : List.length (recentTransactions jar)
                = Nat.min 10 (List.length (jarTransactions jar)))
    by apply sliceLast_length.
  split; [intros E; rewrite E in Hrl; cbn [List.length] in Hrl; lia |].
  split; [exact Hrl |].
  intros first rest Hrec lst rate remaining days.
  assert (Hord : TransactionRecord.date first <= TransactionRecord.date lst).
  { pose proof (jarTransactions_sorted jar) as S.
    apply (StronglySorted_skipn _ (List.length (jarTransactions jar) - 10)) in S.
    change (skipn _ _) with (recentTransactions jar) in S. rewrite Hrec in S.
    apply (StronglySorted_head_last _ first rest S).
    intros ->. rewrite Hrec in Hrl. cbn [List.length] in Hrl. lia. }
  assert (Hdays : (let d := differenceInDays (TransactionRecord.date lst)
                               (TransactionRecord.date first) in
                   if d =? 0 then 1 else d)
                  = Z.max 1 (differenceInDays (TransactionRecord.date lst)
                               (TransactionRecord.date first))).
  { cbv zeta. rewrite differenceInDays_forward by exact Hord.
    assert (0 <= (TransactionRecord.date lst - TransactionRecord.date first) / msPerDay)
      by (apply Z.div_pos; unfold msPerDay; lia).
    destruct (_ =? 0) eqn:E; bool_to_prop; lia. }
  split; [exact Hord |].
  unfold predictJar.
  replace (List.length (jarTransactions jar) <? 2)%nat with false
    by (symmetry; apply Nat.ltb_ge; exact Hlen).
  rewrite Hrec. fold lst. cbv zeta in Hdays. cbv zeta. rewrite Hdays.
  fold rate. fold remaining. fold days.
  split; [reflexivity |]. split.
  - intros Hrem Hrate.
    rewrite (proj2 (Qgtb_true remaining 0) Hrem), (proj2 (Qgtb_true rate 0) Hrate).
    cbn [andb Prediction.daysToGoal Prediction.prediction].
    split; [reflexivity |].
    split.
    { apply Binary64Lemmas.Qceiling_nonneg, Binary64Lemmas.fdiv_nonneg;
        [apply Qlt_le_weak; exact Hrem | exact Hrate]. }
    split.
    + intros E. rewrite E. reflexivity.
    + intros Hd.
      replace (days =? 0) with false by (symmetry; apply Z.eqb_neq; lia).
      reflexivity.
  - intros Hno.
    assert (E : Qgtb remaining 0 && Qgtb rate 0 = false).
    { apply not_true_is_false. rewrite andb_true_iff, !Qgtb_true. exact Hno. }
    rewrite E. cbn [Prediction.daysToGoal Prediction.prediction]. split; reflexivity.
Qed.

Lemma predictJar_few (now : Z) (jar : Jar.t) :
  (List.length (jarTransactions jar) < 2)%nat ->
  predictJar now jar = noPrediction jar.
Proof.
  intros H. unfold predictJar.
  replace (List.length (jarTransactions jar) <? 2)%nat with true
    by (symmetry; apply Nat.ltb_lt; exact H).
  reflexivity.
Qed.

Lemma predictions_In (jars : list Jar.t) (now : Z) (p : Prediction.t) :
  In p (predictions jars now)
  <-> (exists jar, In jar jars /\ p = predictJar now jar)
      /\ Prediction.prediction p <> None.
Proof.
  unfold predictions. rewrite filter_In, in_map_iff. unfold hasPrediction.
  split.
  - intros [(jar & E & Hin) Hp]. split; [exists jar; auto |].
    destruct (Prediction.prediction p); congruence.
  - intros [(jar & Hin & E) Hp]. split; [exists jar; auto |].
    destruct (Prediction.prediction p); congruence.
Qed.

(** A result that is kept: at least one day to the goal, and the date that
    many days after [now], or Invalid Date when that is beyond the range of
    a Date. *)
Lemma kept_prediction (jars : list Jar.t) (now : Z) (p : Prediction.t) :
  0 <= now <= maxTime ->
  In p (predictions jars now) ->
  exists d,
    Prediction.daysToGoal p = Some d /\ 1 <= d /\
    ((now + d * msPerDay <= maxTime /\
      Prediction.prediction p = Some (ValidDate (now + d * msPerDay))) \/
     (maxTime < now + d * msPerDay /\
      Prediction.prediction p = Some InvalidDate)).
Proof.
  intros Hnow Hin. apply predictions_In in Hin as [(jar & _ & ->) Hp].
  destruct (Nat.lt_ge_cases (List.length (jarTransactions jar)) 2) as [Few | Many].
  - rewrite predictJar_few in Hp by exact Few. now cbn in Hp.
  - destruct (predictJar_recent now jar Many) as (Hne & _ & Hrec).
    destruct (recentTransactions jar) as [| first rest] eqn:E; [congruence |].
    destruct (Hrec first rest eq_refl) as (_ & _ & Hg & Hn).
    cbv zeta in Hg, Hn.
    set (rate := Binary64.fdiv _ _) in *.
    set (remaining := Binary64.fsub (Jar.target jar) (Jar.saved jar)) in *.
    set (days := Qceiling (Binary64.fdiv remaining rate)) in *.
    destruct (Qlt_le_dec 0 remaining) as [Hrem | Hrem];
      [destruct (Qlt_le_dec 0 rate) as [Hrate | Hrate] |].
    + destruct (Hg Hrem Hrate) as (Hd & Hpos & Hzero & Hsome).
      assert (H1 : 1 <= days).
      { destruct (Z.eq_dec days 0) as [Z0 | NZ]; [| lia].
        now rewrite (Hzero Z0) in Hp. }
      exists days. split; [exact Hd | split; [exact H1 |]].
      rewrite (Hsome H1).
      destruct (predictedTime_cases now days Hnow H1) as [Hin Hout].
      destruct (Z_le_gt_dec (now + days * msPerDay) maxTime) as [L | G].
      * left. split; [exact L |]. now rewrite (Hin L).
      * right. split; [lia |]. rewrite Hout by lia. reflexivity.
    + destruct Hn as [_ Hnone]; [| congruence].
      intros [_ H]. now apply (Qlt_not_le _ _ H).
    + destruct Hn as [_ Hnone]; [| congruence].
      intros [H _]. now apply (Qlt_not_le _ _ H).
Qed.







(** C1, at a failing input.  One saving of 10 on a Monday: no "saved"
    transaction falls on a Sunday and every amount is positive, yet the
    reported worst day is the Sunday bucket, whose count is 0. *)
Theorem worst_day_is_empty_sunday :
  Forall (fun t => getDay (Transaction.date t) <> 0
                   /\ (0 < Transaction.amount t)%Q)
         (filter savedOn (allTransactions Samples.oneSaving)) /\
  nth_error (dayOfWeekStats Samples.oneSaving) 1
  = Some {| DayStat.day := "Monday"; DayStat.amount := 10; DayStat.count := 1 |} /\
  worstSavingDay Samples.oneSaving
  = Some {| DayStat.day := "Sunday"; DayStat.amount := 0; DayStat.count := 0 |}.
Proof.
  split; [| split; vm_compute; reflexivity].
  repeat constructor; vm_compute; discriminate.
Qed.

(** C2, at a failing input.  One saving, made today: the only unique date
    is today, the current streak is 1, and the longest streak is 0. *)
Theorem longest_streak_below_current :
  List.length (uniqueDates Samples.oneSaving) = 1%nat /\
  currentStreak Samples.oneSaving Samples.mondayNoon = 1 /\
  longestStreak Samples.oneSaving = 0 /\
  ~ (longestStreak Samples.oneSaving
     >= currentStreak Samples.oneSaving Samples.mondayNoon).
Proof.
  repeat split; try (vm_compute; reflexivity).
  vm_compute. intros H. now apply H.
Qed.

End AnalyticsProperties.

(** ** The sums in doubles *)

Module DoublesProperties.
Import DateFns Format JsArray AdvancedAnalytics DateLemmas ArrayLemmas
       AnalyticsProperties Binary64 Binary64Lemmas.


Lemma filter_implies {A : Type} (p s : A -> bool) (l : list A) :
  (forall x, p x = true -> s x = true) -> filter p (filter s l) = filter p l.
Proof.
  intros H. induction l as [| x l IH]; [reflexivity |]. cbn [filter].
  destruct (s x) eqn:Es; cbn [filter]; destruct (p x) eqn:Ep;
    rewrite ?IH; try reflexivity.
  rewrite (H x Ep) in Es. discriminate Es.
Qed.


(** Sums of whole numbers: while the absolute values add up to no more
    than 2^53, no addition rounds. *)
Section WholeSums.
Context {A : Type}.
Variable f : A -> Q.

Lemma zTotal_cons (x : A) (l : list A) :
  Doubles.zTotal f (x :: l) = Qfloor (f x) + Doubles.zTotal f l.
Proof. reflexivity. Qed.

Lemma absTotal_cons (x : A) (l : list A) :
  Doubles.absTotal f (x :: l) = Z.abs (Qfloor (f x)) + Doubles.absTotal f l.
Proof. reflexivity. Qed.

Lemma absTotal_nonneg (l : list A) : 0 <= Doubles.absTotal f l.
Proof.
  induction l as [| x l IH]; [reflexivity |]. rewrite absTotal_cons. lia.
Qed.



Lemma absTotal_app (l l' : list A) :
  Doubles.absTotal f (l ++ l') = Doubles.absTotal f l + Doubles.absTotal f l'.
Proof.
  induction l as [| x l IH]; cbn [app]; [reflexivity |].
  rewrite !absTotal_cons, IH. lia.
Qed.


Lemma absTotal_perm (l l' : list A) :
  Permutation l l' -> Doubles.absTotal f l = Doubles.absTotal f l'.
Proof.
  induction 1 as [| x l l' _ IH | x y l | l l' l'' _ IH1 _ IH2];
    rewrite ?absTotal_cons; lia.
Qed.

Lemma absTotal_filter (p : A -> bool) (l : list A) :
  Doubles.absTotal f (filter p l) <= Doubles.absTotal f l.
Proof.
  induction l as [| x l IH]; [reflexivity |]. cbn [filter].
  destruct (p x); rewrite ?absTotal_cons; lia.
Qed.

Lemma whole_filter (p : A -> bool) (l : list A) :
  Forall (fun x => Doubles.isWhole (f x)) l ->
  Forall (fun x => Doubles.isWhole (f x)) (filter p l).
Proof.
  rewrite !Forall_forall. intros H x Hx. apply filter_In in Hx as [Hx _]. auto.
Qed.

Lemma sumOfD_acc_whole (l : list A) (acc : Q) (a : Z) :
  (acc == inject_Z a)%Q ->
  Forall (fun x => Doubles.isWhole (f x)) l ->
  Z.abs a + Doubles.absTotal f l <= 2 ^ 53 ->
  (fold_left (fun sum x => fadd sum (f x)) l acc
   == inject_Z (a + Doubles.zTotal f l))%Q.
Proof.
  revert acc a. induction l as [| x l IH]; intros acc a E W B.
  - cbn [fold_left]. rewrite E.
    replace (a + Doubles.zTotal f []) with a by (cbn; lia). reflexivity.
  - cbn [fold_left]. rewrite zTotal_cons. rewrite absTotal_cons in B.
    inversion W as [| ? ? Wx Wl]; subst.
    pose proof (absTotal_nonneg l) as N.
    replace (a + (Qfloor (f x) + Doubles.zTotal f l))
      with ((a + Qfloor (f x)) + Doubles.zTotal f l) by lia.
    apply IH; [| exact Wl | lia].
    assert (E' : (acc + f x == inject_Z (a + Qfloor (f x)))%Q).
    { rewrite inject_Z_plus, E. unfold Doubles.isWhole in Wx.
      rewrite <- Wx. reflexivity. }
    unfold fadd. rewrite (round64_proper _ _ E'). apply round64_int. lia.
Qed.

Lemma sumOfD_whole (l : list A) :
  Forall (fun x => Doubles.isWhole (f x)) l ->
  Doubles.absTotal f l <= 2 ^ 53 ->
  (sumOfD f l == inject_Z (Doubles.zTotal f l))%Q.
Proof.
  intros W B. unfold sumOfD.
  rewrite (sumOfD_acc_whole l 0 0); [reflexivity | reflexivity | exact W |].
  pose proof (absTotal_nonneg l). lia.
Qed.

Lemma sumOf_whole (l : list A) :
  Forall (fun x => Doubles.isWhole (f x)) l ->
  (sumOf f l == inject_Z (Doubles.zTotal f l))%Q.
Proof.
  induction 1 as [| x l Wx _ IH]; [reflexivity |].
  rewrite sumOf_cons, zTotal_cons, inject_Z_plus, IH.
  unfold Doubles.isWhole in Wx. rewrite <- Wx. reflexivity.
Qed.

(** Without any condition on the amounts: a sum of amounts none of which
    is negative is not negative. *)
Lemma sumOfD_nonneg (l : list A) :
  Forall (fun x => (0 <= f x)%Q) l -> (0 <= sumOfD f l)%Q.
Proof.
  intros H. unfold sumOfD.
  assert (G : forall acc : Q,
             (0 <= acc)%Q ->
             (0 <= fold_left (fun sum x => fadd sum (f x)) l acc)%Q).
  { induction H as [| x l Hx _ IH]; intros acc Hacc; cbn [fold_left];
      [exact Hacc |].
    apply IH. apply round64_nonneg.
    apply (Qplus_le_compat 0 acc 0 (f x) Hacc Hx). }
  apply G, Qle_refl.
Qed.

End WholeSums.

(** Under [WholeSavings] a sum over selected "saved" transactions is the
    same in doubles and in exact arithmetic. *)
Lemma whole_selection (jars : list Jar.t) (p : Transaction.t -> bool) :
  Doubles.WholeSavings jars ->
  (forall t, p t = true -> savedOn t = true) ->
  let l := filter p (allTransactions jars) in
  Forall (fun t => Doubles.isWhole (Transaction.amount t)) l /\
  Doubles.absTotal Transaction.amount l <= 2 ^ 53 /\
  (Doubles.sumAmounts l == inject_Z (Doubles.zTotal Transaction.amount l))%Q /\
  (Doubles.sumAmounts l == sumAmounts l)%Q.
Proof.
  intros [W B] Hp l.
  assert (El : l = filter p (Doubles.savedTransactions jars)).
  { unfold l, Doubles.savedTransactions. now rewrite filter_implies. }
  assert (Wl : Forall (fun t => Doubles.isWhole (Transaction.amount t)) l)
    by (rewrite El; now apply whole_filter).
  assert (Bl : Doubles.absTotal Transaction.amount l <= 2 ^ 53).
  { rewrite El.
    pose proof (absTotal_filter Transaction.amount p (Doubles.savedTransactions jars)).
    lia. }
  split; [exact Wl | split; [exact Bl |]].
  unfold Doubles.sumAmounts, sumAmounts.
  rewrite (sumOfD_whole _ _ Wl Bl), (sumOf_whole _ _ Wl). split; reflexivity.
Qed.

Lemma savedTotal_whole (jars : list Jar.t) :
  Doubles.WholeSavings jars ->
  (Doubles.savedTotal jars
   == inject_Z (Doubles.zTotal Transaction.amount (Doubles.savedTransactions jars)))%Q /\
  (Doubles.savedTotal jars == sumRecordAmounts (savedRecords jars))%Q.
Proof.
  intros H. destruct (whole_selection jars savedOn H (fun t E => E))
    as (_ & _ & Hz & He).
  fold (Doubles.savedTransactions jars) in Hz, He.
  fold (Doubles.savedTotal jars) in Hz, He.
  split; [exact Hz |]. rewrite He. apply saved_total.
Qed.















End DoublesProperties.

(** ** More on the progress ring *)

Module CircleExtra.
Import CircleVisualization CircleGeometry CircleProperties.
Local Open Scope Q_scope.

Ltac split_and := repeat match goal with |- _ /\ _ => split end.

Ltac unfold_ring :=
  unfold greenRotation, blueRotation, orangeRotation, greenOffset, blueOffset,
    orangeOffset, redOffset, dashOffset, segmentSum, redProgress, orangeProgress,
    blueProgress, greenProgress in *.

(** X1. A circle is drawn, [segment > 0], exactly when the progress is above
    the lower end of its quarter. *)
Theorem segment_drawn_iff (p : Q) :
  (0 < redProgress p <-> 0 < p) /\
  (0 < orangeProgress p <-> 25 < p) /\
  (0 < blueProgress p <-> 50 < p) /\
  (0 < greenProgress p <-> 75 < p).
Proof.
  unfold_ring. repeat split; split_minmax; intros; lra.
Qed.

Lemma segment_drawn_iff_witness :
  25 < 40 /\ 0 < CircleVisualization.orangeProgress 40.
Proof.
  assert (H : 25 < 40) by (vm_compute; reflexivity).
  split; [exact H |].
  apply (proj2 (proj1 (proj2 (segment_drawn_iff 40))) H).
Defined.

(** X2. A circle that is drawn starts where the quarter before it ends: the
    circles before it are full and its rotation is 90, 180 or 270 degrees. *)
Theorem drawn_segment_rotation (p : Q) :
  (0 < orangeProgress p -> redProgress p == 25 /\ orangeRotation p == 90) /\
  (0 < blueProgress p ->
     redProgress p == 25 /\ orangeProgress p == 25 /\ blueRotation p == 180) /\
  (0 < greenProgress p ->
     redProgress p == 25 /\ orangeProgress p == 25 /\ blueProgress p == 25 /\
     greenRotation p == 270).
Proof.
  unfold_ring. split_and; split_minmax; intros; split_and; try lra;
    vm_compute; reflexivity.
Qed.

Lemma drawn_segment_rotation_witness :
  (0 < orangeProgress 40 /\ orangeRotation 40 == 90) /\
  (0 < blueProgress 60 /\ blueRotation 60 == 180) /\
  (0 < greenProgress 90 /\ greenRotation 90 == 270).
Proof.
  assert (Ho : 0 < orangeProgress 40) by (vm_compute; reflexivity).
  assert (Hb : 0 < blueProgress 60) by (vm_compute; reflexivity).
  assert (Hg : 0 < greenProgress 90) by (vm_compute; reflexivity).
  split; [| split].
  - split; [exact Ho |].
    apply (proj1 (drawn_segment_rotation 40) Ho).
  - split; [exact Hb |].
    apply (proj1 (proj2 (drawn_segment_rotation 60)) Hb).
  - split; [exact Hg |].
    apply (proj2 (proj2 (drawn_segment_rotation 90)) Hg).
Defined.

Lemma segment_ranges (p : Q) :
  0 <= p ->
  (0 <= redProgress p /\ redProgress p <= 25) /\
  (0 <= orangeProgress p /\ orangeProgress p <= 25) /\
  (0 <= blueProgress p /\ blueProgress p <= 25) /\
  (0 <= greenProgress p /\ greenProgress p <= 25).
Proof. unfold_ring. intros H. split_minmax; split_and; lra. Qed.

Lemma dashOffset_range (c s : Q) :
  0 <= c -> 0 <= s -> s <= 25 -> 0 <= dashOffset c s /\ dashOffset c s <= c.
Proof.
  intros Hc H0 H25. unfold dashOffset.
  assert (E : c - s / 25 * c == c * ((25 - s) * (1 # 25))) by field.
  assert (F : s / 25 * c == c * (s * (1 # 25))) by field.
  split.
  - rewrite E. apply Qmult_le_0_compat; [exact Hc | lra].
  - assert (0 <= c * (s * (1 # 25))) by (apply Qmult_le_0_compat; [exact Hc | lra]).
    rewrite F. lra.
Qed.

(** X3. For a progress that is not negative, the dash offset of each circle
    lies between 0 and the circumference; from 100 on, every offset is 0
    and the ring is closed. *)
Theorem dash_offsets (c p : Q) :
  0 <= c -> 0 <= p ->
  (0 <= redOffset c p /\ redOffset c p <= c) /\
  (0 <= orangeOffset c p /\ orangeOffset c p <= c) /\
  (0 <= blueOffset c p /\ blueOffset c p <= c) /\
  (0 <= greenOffset c p /\ greenOffset c p <= c) /\
  (100 <= p ->
     redOffset c p == 0 /\ orangeOffset c p == 0 /\
     blueOffset c p == 0 /\ greenOffset c p == 0).
Proof.
  intros Hc Hp.
  destruct (segment_ranges p Hp) as ((R0 & R1) & (O0 & O1) & (B0 & B1) & (G0 & G1)).
  unfold redOffset, orangeOffset, blueOffset, greenOffset.
  split; [now apply dashOffset_range |].
  split; [now apply dashOffset_range |].
  split; [now apply dashOffset_range |].
  split; [now apply dashOffset_range |].
  intros H100. unfold dashOffset.
  assert (redProgress p == 25) as -> by (unfold_ring; split_minmax; lra).
  assert (orangeProgress p == 25) as -> by (unfold_ring; split_minmax; lra).
  assert (blueProgress p == 25) as -> by (unfold_ring; split_minmax; lra).
  assert (greenProgress p == 25) as -> by (unfold_ring; split_minmax; lra).
  split_and; field.
Qed.

Lemma dash_offsets_witness :
  0 <= 830 /\ 0 <= 120 /\ redOffset 830 120 == 0 /\ greenOffset 830 120 == 0.
Proof.
  assert (Hc : 0 <= 830) by (vm_compute; discriminate).
  assert (Hp : 0 <= 120) by (vm_compute; discriminate).
  assert (H100 : 100 <= 120) by (vm_compute; discriminate).
  destruct (dash_offsets 830 120 Hc Hp) as (_ & _ & _ & _ & Hfull).
  destruct (Hfull H100) as (Hr & _ & _ & Hg).
  split; [exact Hc | split; [exact Hp | split; [exact Hr | exact Hg]]].
Defined.

Lemma Math_min_mono (a a' b : Q) : a <= a' -> Math_min a b <= Math_min a' b.
Proof. intros H. split_minmax; lra. Qed.

Lemma Math_max_mono (a a' b : Q) : a <= a' -> Math_max a b <= Math_max a' b.
Proof. intros H. split_minmax; lra. Qed.

(** X4. More progress never shortens a circle. *)
Theorem segments_monotone (p q : Q) :
  p <= q ->
  redProgress p <= redProgress q /\
  orangeProgress p <= orangeProgress q /\
  blueProgress p <= blueProgress q /\
  greenProgress p <= greenProgress q.
Proof.
  intros H. unfold redProgress, orangeProgress, blueProgress, greenProgress.
  split_and; repeat (apply Math_min_mono || apply Math_max_mono); lra.
Qed.

Lemma segments_monotone_witness :
  30 <= 80 /\ orangeProgress 30 <= orangeProgress 80
  /\ greenProgress 30 <= greenProgress 80.
Proof.
  assert (H : 30 <= 80) by (vm_compute; discriminate).
  destruct (segments_monotone 30 80 H) as (_ & Ho & _ & Hg).
  split; [exact H | split; [exact Ho | exact Hg]].
Defined.

End CircleExtra.

(** ** More on the analytics bundle *)

Module AnalyticsExtra.
Import DateFns Format JsArray AdvancedAnalytics DateLemmas ArrayLemmas
  AnalyticsProperties
       Binary64Lemmas DoublesProperties.

(** *** Flattening and sorting *)

Lemma rawTransactions_In (jars : list Jar.t) (t : Transaction.t) :
  In t (rawTransactions jars)
  <-> exists jar r, In jar jars /\ In r (recordsOf jar) /\ t = tagged jar r.
Proof.
  unfold rawTransactions. rewrite in_flat_map. split.
  - intros (jar & Hj & Ht). apply in_map_iff in Ht as (r & <- & Hr).
    now exists jar, r.
  - intros (jar & r & Hj & Hr & ->). exists jar. split; [exact Hj |].
    now apply in_map.
Qed.

(** X5. [allTransactions] holds every record of every jar once, tagged with
    the name of its jar, in ascending order of date. *)
Theorem allTransactions_sorted (jars : list Jar.t) :
  StronglySorted (fun a b => Transaction.date a <= Transaction.date b)
                 (allTransactions jars) /\
  Permutation (allTransactions jars) (rawTransactions jars) /\
  List.length (allTransactions jars)
  = List.length (flat_map recordsOf jars) /\
  (forall t, In t (allTransactions jars)
             <-> exists jar r, In jar jars /\ In r (recordsOf jar)
                               /\ t = tagged jar r).
Proof.
  split; [| split; [apply allTransactions_perm | split]].
  - assert (S : StronglySorted
                  (fun a b => (getTime (Transaction.date a)
                               - getTime (Transaction.date b) <=? 0) = true)
                  (allTransactions jars)).
    { apply sort_sorted; unfold getTime; intros; bool_to_prop; lia. }
    revert S. generalize (allTransactions jars).
    induction 1 as [| x l _ IH Hx]; constructor; [exact IH |].
    eapply Forall_impl; [| exact Hx].
    unfold getTime. intros; bool_to_prop; lia.
  - rewrite (Permutation_length (allTransactions_perm jars)).
    unfold rawTransactions. induction jars as [| jar jars IH]; [reflexivity |].
    cbn [flat_map]. now rewrite !length_app, length_map, IH.
  - intros t. rewrite <- rawTransactions_In. split; apply Permutation_in;
      [| symmetry]; apply allTransactions_perm.
Qed.

(** *** Unique saving dates *)

Lemma keyEqb_eq (a b : DateKey) : keyEqb a b = true <-> a = b.
Proof.
  destruct a as [ya ma da], b as [yb mb db]. unfold keyEqb. cbn [year month dayOfMonth].
  rewrite !andb_true_iff, !Z.eqb_eq. split.
  - intros [[-> ->] ->]. reflexivity.
  - intros E. injection E as -> -> ->. auto.
Qed.

Lemma keyLeb_total (a b : DateKey) : keyLeb a b = true \/ keyLeb b a = true.
Proof.
  unfold keyLeb.
  destruct (year a =? year b) eqn:Ey, (year b =? year a) eqn:Ey';
    destruct (month a =? month b) eqn:Em, (month b =? month a) eqn:Em';
    bool_to_prop; try lia.
Qed.

Lemma keyLeb_trans (a b c : DateKey) :
  keyLeb a b = true -> keyLeb b c = true -> keyLeb a c = true.
Proof.
  unfold keyLeb.
  destruct (year a =? year b) eqn:E1, (year b =? year c) eqn:E2,
    (year a =? year c) eqn:E3;
    destruct (month a =? month b) eqn:M1, (month b =? month c) eqn:M2,
      (month a =? month c) eqn:M3;
    bool_to_prop; intros; lia.
Qed.

Section Uniq.
Context {A : Type}.
Variable eqb : A -> A -> bool.
Hypothesis eqb_eq : forall a b, eqb a b = true <-> a = b.

Lemma existsb_eqb_In (x : A) (l : list A) : existsb (eqb x) l = true <-> In x l.
Proof.
  rewrite existsb_exists. split.
  - intros (y & Hy & E). apply eqb_eq in E. now subst.
  - intros H. exists x. split; [exact H | now apply eqb_eq].
Qed.

Lemma uniq_fold (l seen : list A) :
  NoDup seen ->
  let r :=
    fold_left (fun seen x => if existsb (eqb x) seen then seen else seen ++ [x])
              l seen in
  NoDup r /\ forall x, In x r <-> In x seen \/ In x l.
Proof.
  revert seen. induction l as [| y l IH]; intros seen Hnd; cbv zeta; cbn [fold_left].
  - split; [exact Hnd |]. intros x. cbn [In]. tauto.
  - destruct (existsb (eqb y) seen) eqn:E.
    + apply existsb_eqb_In in E. destruct (IH seen Hnd) as [N I].
      split; [exact N |]. intros x. rewrite I. cbn [In].
      split; [tauto |]. intros [H | [<- | H]]; auto.
    + assert (Hy : ~ In y seen).
      { intros H. apply existsb_eqb_In in H. congruence. }
      destruct (IH (seen ++ [y])) as [N I].
      { apply NoDup_app; repeat split; auto.
        - repeat constructor. intros [].
        - intros x Hx [<- | []]. contradiction. }
      split; [exact N |]. intros x. rewrite I, in_app_iff. cbn [In]. tauto.
Qed.

Lemma uniq_spec (l : list A) :
  NoDup (uniq eqb l) /\ forall x, In x (uniq eqb l) <-> In x l.
Proof.
  destruct (uniq_fold l [] (NoDup_nil A)) as [N I].
  split; [exact N |]. intros x. unfold uniq. rewrite I. cbn [In]. tauto.
Qed.

End Uniq.

Lemma uniqueDates_facts (jars : list Jar.t) :
  NoDup (uniqueDates jars) /\
  StronglySorted (fun a b => keyLeb a b = true) (uniqueDates jars) /\
  (forall k, In k (uniqueDates jars)
             <-> exists t, In t (allTransactions jars) /\ savedOn t = true
                           /\ format_yyyy_MM_dd (Transaction.date t) = k).
Proof.
  destruct (uniq_spec keyEqb keyEqb_eq (savingDates jars)) as [N I].
  assert (P : Permutation (uniqueDates jars) (uniq keyEqb (savingDates jars)))
    by apply sort_perm.
  split; [eapply Permutation_NoDup; [symmetry; exact P | exact N] |].
  split; [apply sort_sorted; [apply keyLeb_total | apply keyLeb_trans] |].
  intros k. split.
  - intros H. apply (Permutation_in _ P), I in H. unfold savingDates in H.
    apply in_map_iff in H as (t & <- & Ht). apply filter_In in Ht as [Ht Hs].
    now exists t.
  - intros (t & Ht & Hs & <-). apply (Permutation_in _ (Permutation_sym P)), I.
    unfold savingDates.
    apply (in_map (fun t => format_yyyy_MM_dd (Transaction.date t))).
    now apply filter_In.
Qed.

(** X6. [uniqueDates] lists, without repetition and in ascending order, the
    calendar days that carry at least one "saved" transaction. *)
Theorem uniqueDates_spec (jars : list Jar.t) :
  NoDup (uniqueDates jars) /\
  StronglySorted (fun a b => keyLeb a b = true) (uniqueDates jars) /\
  (forall k, In k (uniqueDates jars)
             <-> exists t, In t (allTransactions jars) /\ savedOn t = true
                           /\ format_yyyy_MM_dd (Transaction.date t) = k).
Proof. apply uniqueDates_facts. Qed.

(** *** Streaks *)

Lemma format_Day (a b : Z) :
  format_yyyy_MM_dd a = format_yyyy_MM_dd b <-> Day a = Day b.
Proof.
  unfold format_yyyy_MM_dd, getFullYear, getMonth, getDate. split.
  - intros E. injection E as Ey Em Ed.
    rewrite <- (MakeDay_fields (Day a)), <- (MakeDay_fields (Day b)).
    rewrite Ey, Ed. f_equal. lia.
  - intros ->. reflexivity.
Qed.

Lemma Day_newDate_format (t : Z) : Day (newDate (format_yyyy_MM_dd t)) = Day t.
Proof.
  unfold newDate, format_yyyy_MM_dd. cbn [year month dayOfMonth].
  rewrite Day_MakeDate by (unfold msPerDay; lia).
  replace (getMonth t + 1 - 1) with (getMonth t) by lia.
  apply MakeDay_fields.
Qed.

Lemma newDate_midnight (k : DateKey) : newDate k = MakeDate (Day (newDate k)) 0.
Proof.
  unfold newDate. now rewrite Day_MakeDate by (unfold msPerDay; lia).
Qed.

(** Between two midnights [differenceInDays] is the difference of the day
    numbers, in either direction. *)
Lemma differenceInDays_midnights (a b : Z) :
  differenceInDays (MakeDate a 0) (MakeDate b 0) = a - b.
Proof.
  destruct (Z_le_gt_dec b a) as [L | G].
  - rewrite differenceInDays_forward by (unfold MakeDate, msPerDay; lia).
    unfold MakeDate, msPerDay. rewrite !Z.add_0_r, <- Z.mul_sub_distr_r.
    apply Z.div_mul. lia.
  - unfold differenceInDays, compareLocalAsc, differenceInCalendarDays, startOfDay,
      setHours.
    rewrite setDate_back.
    change (((0 * 60 + 0) * 60 + 0) * 1000 + 0) with 0.
    rewrite !Day_MakeDate by (unfold msPerDay; lia).
    assert (Ed : (MakeDate a 0 - MakeDate b 0) / msPerDay = a - b).
    { unfold MakeDate, msPerDay. rewrite !Z.add_0_r, <- Z.mul_sub_distr_r.
      apply Z.div_mul. lia. }
    rewrite Ed.
    assert (Es : Z.sgn (MakeDate a 0 - MakeDate b 0) = -1)
      by (apply Z.sgn_neg; unfold MakeDate, msPerDay; lia).
    rewrite Es, Z.abs_neq by lia.
    replace (MakeDate a 0 - -1 * - (a - b) * msPerDay - MakeDate b 0) with 0
      by (unfold MakeDate; lia).
    cbn [Z.sgn Z.opp Z.eqb]. lia.
Qed.

Lemma currentStreakLoop_spec (now : Z) (dates : list DateKey) (s c : Z) :
  let r := currentStreakLoop now dates s c in
  c <= r <= c + Z.of_nat (List.length dates) /\
  forall j, s <= j < s + (r - c) ->
    exists k, In k dates /\
      format_yyyy_MM_dd (newDate k)
      = format_yyyy_MM_dd (setDate now (getDate now - j)).
Proof.
  revert s c. induction dates as [| k dates IH]; intros s c; cbv zeta;
    cbn [currentStreakLoop List.length].
  - split; [lia |]. intros j Hj. lia.
  - destruct (keyEqb _ _) eqn:E.
    + apply keyEqb_eq in E. destruct (IH (s + 1) (c + 1)) as [B S].
      split; [lia |]. intros j Hj.
      destruct (Z.eq_dec j s) as [-> | N].
      * exists k. split; [now left | exact E].
      * destruct (S j) as (k' & Hk & Ek); [lia |].
        exists k'. split; [now right | exact Ek].
    + split; [lia |]. intros j Hj. lia.
Qed.

Lemma saved_on_key (jars : list Jar.t) (k : DateKey) :
  In k (uniqueDates jars) ->
  exists t, In t (allTransactions jars) /\ savedOn t = true
            /\ Day (Transaction.date t) = Day (newDate k).
Proof.
  intros H. apply uniqueDates_facts in H as (t & Ht & Hs & <-).
  exists t. repeat split; auto. now rewrite Day_newDate_format.
Qed.

(** X7. The current streak is at most the number of saving days, and each of
    the days it counts, from today backwards, carries a "saved"
    transaction. *)
Theorem currentStreak_sound (jars : list Jar.t) (now : Z) :
  0 <= currentStreak jars now <= Z.of_nat (List.length (uniqueDates jars)) /\
  forall j, 0 <= j < currentStreak jars now ->
    exists t, In t (allTransactions jars) /\ savedOn t = true
              /\ Day (Transaction.date t) = Day now - j.
Proof.
  destruct (currentStreakLoop_spec now (rev (uniqueDates jars)) 0 0) as [B S].
  fold (currentStreak jars now) in B, S. rewrite length_rev in B.
  split; [lia |]. intros j Hj.
  destruct (S j) as (k & Hk & Ek); [lia |].
  apply in_rev in Hk. destruct (saved_on_key jars k Hk) as (t & Ht & Hs & Ed).
  exists t. repeat split; auto.
  apply format_Day in Ek. rewrite Ed, Ek, Day_setDate. lia.
Qed.

Lemma currentStreak_sound_witness :
  0 <= 0 < currentStreak Samples.oneSaving Samples.mondayNoon /\
  exists t, In t (allTransactions Samples.oneSaving) /\ savedOn t = true
            /\ Day (Transaction.date t) = Day Samples.mondayNoon - 0.
Proof.
  assert (H : 0 <= 0 < currentStreak Samples.oneSaving Samples.mondayNoon)
    by (vm_compute; split; [discriminate | reflexivity]).
  split; [exact H |].
  apply (proj2 (currentStreak_sound Samples.oneSaving Samples.mondayNoon) 0 H).
Defined.

Lemma Run_more (keys keys' : list DateKey) (d n : Z) :
  Run keys d n -> Run (keys ++ keys') d n.
Proof.
  intros R j Hj. destruct (R j Hj) as (k & Hk & E).
  exists k. split; [apply in_or_app; now left | exact E].
Qed.

Lemma longestStreakLoop_spec (dates seen : list DateKey) (prev : DateKey)
      (t l : Z) :
  In prev seen -> 1 <= t -> 0 <= l ->
  Run seen (Day (newDate prev)) t ->
  (l = 0 \/ exists d, Run seen d l) ->
  let r := longestStreakLoop prev dates t l in
  l <= r <= Z.max l (t + Z.of_nat (List.length dates)) /\
  (r = 0 \/ exists d, Run (seen ++ dates) d r).
Proof.
  revert seen prev t l.
  induction dates as [| curr dates IH]; intros seen prev t l Hin Ht Hl Rt Rl;
    cbv zeta; cbn [longestStreakLoop List.length].
  - split; [lia |]. rewrite app_nil_r. exact Rl.
  - rewrite (newDate_midnight curr), (newDate_midnight prev),
      differenceInDays_midnights.
    assert (Hc : In curr (seen ++ [curr])) by (apply in_or_app; right; now left).
    replace (seen ++ curr :: dates) with ((seen ++ [curr]) ++ dates)
      by (rewrite <- app_assoc; reflexivity).
    destruct (_ =? 1) eqn:E; bool_to_prop.
    + assert (Rt' : Run (seen ++ [curr]) (Day (newDate curr)) (t + 1)).
      { intros j Hj. destruct (Z.eq_dec j 0) as [-> | N].
        - exists curr. split; [exact Hc | lia].
        - destruct (Rt (j - 1)) as (k & Hk & Ek); [lia |].
          exists k. split; [apply in_or_app; now left | lia]. }
      destruct (IH (seen ++ [curr]) curr (t + 1) (Z.max l (t + 1)) Hc) as [B R];
        try lia; [exact Rt' | | split; [lia | exact R]].
      right. destruct (Z.max_spec l (t + 1)) as [[Hlt ->] | [Hge ->]].
      * now exists (Day (newDate curr)).
      * destruct Rl as [-> | (d & Rd)]; [lia |].
        exists d. now apply Run_more.
    + destruct (IH (seen ++ [curr]) curr 1 l Hc) as [B R]; try lia.
      * intros j Hj. exists curr. split; [exact Hc | lia].
      * destruct Rl as [-> | (d & Rd)]; [now left |].
        right. exists d. now apply Run_more.
      * split; [lia | exact R].
Qed.

(** X8. The longest streak is at most the number of saving days, and when it
    is not 0 there are that many consecutive calendar days each carrying a
    "saved" transaction. *)
Theorem longestStreak_sound (jars : list Jar.t) :
  0 <= longestStreak jars <= Z.of_nat (List.length (uniqueDates jars)) /\
  (0 < longestStreak jars ->
     exists d, forall j, 0 <= j < longestStreak jars ->
       exists t, In t (allTransactions jars) /\ savedOn t = true
                 /\ Day (Transaction.date t) = d - j).
Proof.
  unfold longestStreak.
  pose proof (saved_on_key jars) as K.
  destruct (uniqueDates jars) as [| first dates]; [cbn; split; lia |].
  destruct (longestStreakLoop_spec dates [first] first 1 0) as [B R];
    try lia; [now left | |].
  { intros j Hj. exists first. split; [now left | lia]. }
  cbn [List.length]. split; [lia |]. intros Hpos.
  destruct R as [R | (d & R)]; [lia |].
  exists d. intros j Hj. destruct (R j Hj) as (k & Hk & Ek).
  destruct (K k Hk) as (t & Ht & Hs & Ed).
  exists t. repeat split; auto. lia.
Qed.

Lemma longestStreak_sound_witness :
  0 < longestStreak [Samples.fiveSavings] /\
  exists d, forall j, 0 <= j < longestStreak [Samples.fiveSavings] ->
    exists t, In t (allTransactions [Samples.fiveSavings]) /\ savedOn t = true
              /\ Day (Transaction.date t) = d - j.
Proof.
  assert (H : 0 < longestStreak [Samples.fiveSavings]) by (vm_compute; reflexivity).
  split; [exact H |].
  apply (proj2 (longestStreak_sound [Samples.fiveSavings]) H).
Defined.

(** *** Best and worst day *)

Lemma Qgtb_le (a b : Q) : Qgtb a b = false -> (a <= b)%Q.
Proof. intros H. apply Qgtb_false in H. now apply Qnot_lt_le. Qed.

Lemma Qltb_true (a b : Q) : Qltb a b = true <-> (a < b)%Q.
Proof. unfold Qltb. apply (Qgtb_true b a). Qed.

Lemma best_fold (l before after : list DayStat.t) (b : DayStat.t) :
  (forall y, In y before -> (DayStat.amount y < DayStat.amount b)%Q) ->
  (forall y, In y after -> (DayStat.amount y <= DayStat.amount b)%Q) ->
  exists l1 l2,
    before ++ b :: after ++ l = l1 ++ fold_left bestStep l b :: l2 /\
    (forall y, In y l1 -> (DayStat.amount y < DayStat.amount (fold_left bestStep l b))%Q) /\
    (forall y, In y l2 -> (DayStat.amount y <= DayStat.amount (fold_left bestStep l b))%Q).
Proof.
  revert before after b.
  induction l as [| x l IH]; intros before after b Hb Ha; cbn [fold_left].
  - exists before, after. rewrite app_nil_r. auto.
  - destruct (Qgtb (DayStat.amount x) (DayStat.amount b)) eqn:E.
    + replace (bestStep b x) with x by (unfold bestStep; now rewrite E).
      apply Qgtb_true in E.
      destruct (IH (before ++ b :: after) [] x) as (l1 & l2 & El & H1 & H2).
      * intros y Hy. apply in_app_or in Hy as [Hy | [<- | Hy]].
        -- eapply Qlt_trans; [apply Hb, Hy | exact E].
        -- exact E.
        -- eapply Qle_lt_trans; [apply Ha, Hy | exact E].
      * intros y [].
      * exists l1, l2. split; [| auto].
        rewrite <- El, <- !app_assoc. reflexivity.
    + replace (bestStep b x) with b by (unfold bestStep; now rewrite E).
      apply Qgtb_le in E.
      destruct (IH before (after ++ [x]) b Hb) as (l1 & l2 & El & H1 & H2).
      * intros y Hy. apply in_app_or in Hy as [Hy | [<- | []]]; auto.
      * exists l1, l2. split; [| auto].
        rewrite <- El, <- !app_assoc. reflexivity.
Qed.

Lemma worst_fold (l : list DayStat.t) (first w : DayStat.t) (seen : list DayStat.t) :
  (w = first \/ (In w seen /\ 0 < DayStat.count w)) ->
  (DayStat.amount w <= DayStat.amount first)%Q ->
  (forall y, In y seen -> 0 < DayStat.count y ->
             (DayStat.amount w <= DayStat.amount y)%Q) ->
  let r := fold_left worstStep l w in
  (r = first \/ (In r (seen ++ l) /\ 0 < DayStat.count r)) /\
  (DayStat.amount r <= DayStat.amount first)%Q /\
  (forall y, In y (seen ++ l) -> 0 < DayStat.count y ->
             (DayStat.amount r <= DayStat.amount y)%Q).
Proof.
  revert w seen. induction l as [| x l IH]; intros w seen Hw Hf Hs; cbv zeta;
    cbn [fold_left].
  - rewrite app_nil_r. auto.
  - replace (seen ++ x :: l) with ((seen ++ [x]) ++ l)
      by (rewrite <- app_assoc; reflexivity).
    destruct (Qltb (DayStat.amount x) (DayStat.amount w)
              && (DayStat.count x >? 0)) eqn:E.
    + replace (worstStep w x) with x by (unfold worstStep; now rewrite E).
      apply andb_true_iff in E as [E C]. apply Qltb_true in E. bool_to_prop.
      apply IH.
      * right. split; [apply in_or_app; right; now left | lia].
      * eapply Qle_trans; [apply Qlt_le_weak, E | exact Hf].
      * intros y Hy Cy. apply in_app_or in Hy as [Hy | [<- | []]].
        -- eapply Qle_trans; [apply Qlt_le_weak, E | now apply Hs].
        -- apply Qle_refl.
    + replace (worstStep w x) with w by (unfold worstStep; now rewrite E).
      apply IH.
      * destruct Hw as [-> | [Hin Hc]]; [now left |].
        right. split; [apply in_or_app; now left | exact Hc].
      * exact Hf.
      * intros y Hy Cy. apply in_app_or in Hy as [Hy | [<- | []]];
          [now apply Hs |].
        apply andb_false_iff in E as [E | E].
        -- apply Qnot_lt_le. intros H. apply Qltb_true in H. congruence.
        -- exfalso. assert ((DayStat.count x >? 0) = true) by (bool_to_prop; lia).
           congruence.
Qed.

Lemma dayOfWeekStats_days (jars : list Jar.t) :
  map DayStat.day (dayOfWeekStats jars) = dayNames.
Proof.
  destruct (bucket_fold (filter savedOn (allTransactions jars)) initialDayOfWeekStats
              eq_refl) as (Hd & _).
  fold (dayOfWeekStats jars) in Hd. rewrite Hd. reflexivity.
Qed.

Lemma dayOfWeekStats_cons (jars : list Jar.t) :
  exists sunday rest, dayOfWeekStats jars = sunday :: rest.
Proof.
  pose proof (dayOfWeekStats_days jars) as H.
  destruct (dayOfWeekStats jars) as [| sunday rest]; [discriminate H |].
  now exists sunday, rest.
Qed.

Lemma bestSavingDay_split (jars : list Jar.t) :
  exists best l1 l2,
    bestSavingDay jars = Some best /\
    dayOfWeekStats jars = l1 ++ best :: l2 /\
    Forall (fun y => (DayStat.amount y < DayStat.amount best)%Q) l1 /\
    Forall (fun y => (DayStat.amount y <= DayStat.amount best)%Q) l2.
Proof.
  unfold bestSavingDay. destruct (dayOfWeekStats_cons jars) as (sunday & rest & ->).
  cbn [reduce1].
  destruct (best_fold rest [] [] sunday) as (l1 & l2 & El & H1 & H2);
    [intros y [] | intros y [] |].
  exists (fold_left bestStep rest sunday), l1, l2.
  rewrite !Forall_forall. auto.
Qed.

(** X9. The best day is always defined: it is the first of the buckets,
    Sunday to Saturday, whose amount no other bucket exceeds. *)
Theorem bestSavingDay_first_maximum (jars : list Jar.t) :
  exists best l1 l2,
    bestSavingDay jars = Some best /\
    dayOfWeekStats jars = l1 ++ best :: l2 /\
    Forall (fun y => (DayStat.amount y < DayStat.amount best)%Q) l1 /\
    Forall (fun y => (DayStat.amount y <= DayStat.amount best)%Q) l2.
Proof. apply bestSavingDay_split. Qed.

(** X11. In the day-of-week chart exactly one of the seven bars has the
    highlight colour, the other six the plain one. *)
Theorem heat_map_one_highlight (jars : list Jar.t) (now : Z) :
  let fills := DashboardView.heatMapFills (analytics jars now) in
  List.length fills = 7%nat /\
  count_occ string_dec fills "#10b981"%string = 1%nat /\
  count_occ string_dec fills "#6366f1"%string = 6%nat.
Proof.
  cbv zeta. unfold DashboardView.heatMapFills.
  cbn [analytics a_bestSavingDay a_dayOfWeekStats].
  destruct (bestSavingDay_split jars) as (best & l1 & l2 & -> & El & _).
  assert (Hin : In (DayStat.day best) dayNames).
  { rewrite <- (dayOfWeekStats_days jars), El. apply in_map.
    apply in_or_app. right. now left. }
  rewrite <- (map_map DayStat.day
                (fun n => if (n =? DayStat.day best)%string
                          then "#10b981"%string else "#6366f1"%string)).
  rewrite dayOfWeekStats_days.
  cbn [dayNames In] in Hin.
  repeat (destruct Hin as [<- | Hin]; [vm_compute; auto |]).
  destruct Hin.
Qed.

(** X10. The worst day is always defined and is one of the buckets; no bucket
    with a positive count has a smaller amount. *)
Theorem worstSavingDay_lower_bound (jars : list Jar.t) :
  exists worst,
    worstSavingDay jars = Some worst /\
    In worst (dayOfWeekStats jars) /\
    (forall y, In y (dayOfWeekStats jars) -> 0 < DayStat.count y ->
               (DayStat.amount worst <= DayStat.amount y)%Q).
Proof.
  unfold worstSavingDay. destruct (dayOfWeekStats_cons jars) as (sunday & rest & ->).
  cbn [reduce1].
  destruct (worst_fold rest sunday sunday []) as (Hw & Hf & Hs);
    [now left | apply Qle_refl | intros y [] |].
  exists (fold_left worstStep rest sunday). split; [reflexivity | split].
  - destruct Hw as [-> | [Hin _]]; [now left | now right].
  - intros y [<- | Hy] Cy; [exact Hf | now apply Hs].
Qed.

Lemma worstSavingDay_lower_bound_witness :
  exists worst y,
    worstSavingDay Samples.oneSaving = Some worst /\
    In y (dayOfWeekStats Samples.oneSaving) /\ 0 < DayStat.count y /\
    (DayStat.amount worst <= DayStat.amount y)%Q.
Proof.
  destruct (worstSavingDay_lower_bound Samples.oneSaving) as (worst & Hw & _ & Hlb).
  set (monday := {| DayStat.day := "Monday"; DayStat.amount := 10;
                    DayStat.count := 1 |}).
  assert (Hin : In monday (dayOfWeekStats Samples.oneSaving))
    by (vm_compute; right; left; reflexivity).
  assert (Hc : 0 < DayStat.count monday) by reflexivity.
  exists worst, monday.
  split; [exact Hw | split; [exact Hin | split; [exact Hc |]]].
  apply (Hlb monday Hin Hc).
Defined.

(** *** Jar distribution *)

Lemma mapi_length {A B : Type} (f : A -> nat -> B) (i : nat) (l : list A) :
  List.length (mapi f i l) = List.length l.
Proof.
  revert i. induction l as [| x l IH]; intros i; cbn [mapi List.length]; auto.
Qed.

Lemma mapi_nth_error {A B : Type} (f : A -> nat -> B) (i n : nat) (l : list A) :
  nth_error (mapi f i l) n
  = option_map (fun x => f x (i + n)%nat) (nth_error l n).
Proof.
  revert i n. induction l as [| x l IH]; intros i [| n]; cbn [mapi nth_error option_map];
    try reflexivity.
  - now rewrite Nat.add_0_r.
  - rewrite IH. now replace (S i + n)%nat with (i + S n)%nat by lia.
Qed.

Lemma mapi_map {A B C : Type} (f : A -> nat -> B) (g : B -> C) (h : A -> C)
      (i : nat) (l : list A) :
  (forall x n, g (f x n) = h x) -> map g (mapi f i l) = map h l.
Proof.
  intros H. revert i. induction l as [| x l IH]; intros i; cbn [mapi map];
    [reflexivity |]. now rewrite H, IH.
Qed.

Lemma JsString_length_append (a b : JsString.t) :
  JsString.length (JsString.append a b)
  = (JsString.length a + JsString.length b)%nat.
Proof. apply length_app. Qed.

Lemma JsString_length_prefix (n : nat) (s : JsString.t) :
  (n <= JsString.length s)%nat ->
  JsString.length (JsString.substring 0 n s) = n.
Proof.
  intros H. unfold JsString.substring, JsString.length in *.
  rewrite Nat.sub_0_r. cbn [skipn]. rewrite length_firstn. lia.
Qed.

(** X12. The jar distribution has one slice per jar, in the order of the jars:
    its value is the saved amount, its colour the palette entry at the
    position modulo 6, never missing; a name of up to 15 UTF-16 code units
    is kept and a longer one is cut to its first 15 code units and "...",
    18 code units in all.  The values add up to [totalSaved]. *)
Theorem jarDistribution_slices (jars : list Jar.t) :
  List.length (jarDistribution jars) = List.length jars /\
  sumOf JarSlice.value (jarDistribution jars) = totalSaved jars /\
  Forall (fun e => (JsString.length (JarSlice.name e) <= 18)%nat
                   /\ JarSlice.color e <> None)
         (jarDistribution jars) /\
  forall i jar, nth_error jars i = Some jar ->
    exists e,
      nth_error (jarDistribution jars) i = Some e /\
      JarSlice.value e = Jar.saved jar /\
      JarSlice.color e = nth_error chartColors (i mod 6) /\
      ((JsString.length (Jar.name jar) <= 15)%nat ->
         JarSlice.name e = Jar.name jar) /\
      ((15 < JsString.length (Jar.name jar))%nat ->
         JarSlice.name e
         = (firstn 15 (Jar.name jar) ++ JsString.ofAscii "...")%list).
Proof.
  assert (Hnth : forall i jar, nth_error jars i = Some jar ->
            exists e,
              nth_error (jarDistribution jars) i = Some e /\
              JarSlice.value e = Jar.saved jar /\
              JarSlice.color e = nth_error chartColors (i mod 6) /\
              ((JsString.length (Jar.name jar) <= 15)%nat ->
                 JarSlice.name e = Jar.name jar) /\
              ((15 < JsString.length (Jar.name jar))%nat ->
                 JarSlice.name e
                 = (firstn 15 (Jar.name jar) ++ JsString.ofAscii "...")%list)).
  { intros i jar Hi. unfold jarDistribution. rewrite mapi_nth_error, Hi.
    cbn [option_map Nat.add]. eexists. split; [reflexivity |].
    cbn [JarSlice.value JarSlice.color JarSlice.name].
    split; [reflexivity | split; [reflexivity |]].
    destruct (15 <? JsString.length (Jar.name jar))%nat eqn:E.
    - apply Nat.ltb_lt in E. split; [lia | reflexivity].
    - apply Nat.ltb_ge in E. split; [reflexivity | lia]. }
  split; [apply mapi_length |].
  split.
  { unfold totalSaved. rewrite <- (map_id (jarDistribution jars)).
    rewrite <- (sumOf_map (fun q : Q => q) JarSlice.value), map_id.
    unfold jarDistribution.
    rewrite (mapi_map _ JarSlice.value Jar.saved) by reflexivity.
    now rewrite sumOf_map. }
  split; [| exact Hnth].
  apply Forall_forall. intros e He.
  apply In_nth_error in He as (i & Hi).
  assert (Hlt : (i < List.length jars)%nat).
  { assert (Hl : List.length (jarDistribution jars) = List.length jars)
      by apply mapi_length.
    rewrite <- Hl. apply nth_error_Some. congruence. }
  destruct (nth_error jars i) as [jar |] eqn:Ej;
    [| apply nth_error_None in Ej; lia].
  destruct (Hnth i jar Ej) as (e' & He' & _ & Hc & Hshort & Hlong).
  assert (e' = e) by congruence. subst e'.
  split.
  - destruct (Nat.le_gt_cases (JsString.length (Jar.name jar)) 15) as [L | G].
    + rewrite (Hshort L). lia.
    + rewrite (Hlong G).
      change (firstn 15 (Jar.name jar) ++ JsString.ofAscii "...")%list
        with (JsString.append (JsString.substring 0 15 (Jar.name jar))
                              (JsString.ofAscii "...")).
      rewrite JsString_length_append, JsString_length_prefix by lia.
      cbn. lia.
  - rewrite Hc. apply nth_error_Some. cbn [chartColors List.length].
    apply Nat.mod_upper_bound. lia.
Qed.

Lemma jarDistribution_slices_witness :
  nth_error [Samples.fiveSavings; Samples.lodzHoliday] 1
  = Some Samples.lodzHoliday /\
  (15 < JsString.length (Jar.name Samples.lodzHoliday))%nat /\
  exists e,
    nth_error (jarDistribution [Samples.fiveSavings; Samples.lodzHoliday]) 1
    = Some e /\
    JarSlice.value e = 50%Q /\
    JarSlice.name e
    = (JsString.ofAscii "Wakacje w " ++ [321%N] ++ JsString.ofAscii "odzi...")%list.
Proof.
  assert (H : nth_error [Samples.fiveSavings; Samples.lodzHoliday] 1
              = Some Samples.lodzHoliday) by reflexivity.
  assert (L : (15 < JsString.length (Jar.name Samples.lodzHoliday))%nat)
    by (vm_compute; lia).
  split; [exact H |]. split; [exact L |].
  destruct (jarDistribution_slices [Samples.fiveSavings; Samples.lodzHoliday])
    as (_ & _ & _ & Hnth).
  destruct (Hnth 1%nat Samples.lodzHoliday H) as (e & He & Hv & _ & _ & Hlong).
  exists e. split; [exact He | split; [exact Hv |]].
  rewrite (Hlong L). reflexivity.
Defined.

(** *** The two months *)

Lemma daysInMonth_range (y m : Z) : 0 <= m <= 11 -> 28 <= daysInMonth y m <= 31.
Proof.
  intros H. unfold daysInMonth.
  month_cases m; destruct (isLeapYear y); cbn match; lia.
Qed.

(** Day 0 of the next month is the last day of the month. *)
Lemma MakeDay_next_month (y m : Z) :
  0 <= m <= 11 -> MakeDay y (m + 1) 0 = MakeDay y m (daysInMonth y m).
Proof.
  intros H. rewrite (MakeDay_in_range y m) by exact H.
  destruct (Z.eq_dec m 11) as [-> | N].
  - change (MakeDay y (11 + 1) 0) with (DayFromYear (y + 1) + 0 + 0 - 1).
    rewrite DayFromYear_succ. unfold daysInMonth, daysBeforeMonth.
    destruct (isLeapYear y); cbn match; lia.
  - rewrite MakeDay_in_range by lia.
    month_cases m; try lia;
      match goal with
      | |- context [?c + 1] =>
          let c' := eval compute in (c + 1) in change (c + 1) with c'
      end;
      unfold daysInMonth, daysBeforeMonth;
      destruct (isLeapYear y); cbn match; lia.
Qed.

Lemma startOfMonth_value (t : Z) :
  startOfMonth t = MakeDate (Day t - getDate t + 1) 0.
Proof.
  unfold startOfMonth, setHours. rewrite Day_setDate.
  change (((0 * 60 + 0) * 60 + 0) * 1000 + 0) with 0. f_equal. lia.
Qed.

Lemma endOfMonth_value (t : Z) :
  endOfMonth t
  = MakeDate (Day t - getDate t + daysInMonth (getFullYear t) (getMonth t))
             (msPerDay - 1).
Proof.
  unfold endOfMonth, setHours, setFullYear.
  rewrite Day_MakeDate by apply TimeWithinDay_bounds.
  change (((23 * 60 + 59) * 60 + 59) * 1000 + 999) with (msPerDay - 1).
  f_equal. unfold getFullYear, getMonth, getDate.
  pose proof (fields_valid (Day t)) as [Hm _].
  rewrite MakeDay_next_month by exact Hm.
  pose proof (MakeDay_fields (Day t)) as R.
  pose proof (MakeDay_add_date (YearFromDay (Day t)) (MonthFromDay (Day t))
                (DateFromDay (Day t))
                (daysInMonth (YearFromDay (Day t)) (MonthFromDay (Day t))
                 - DateFromDay (Day t))) as S.
  replace (DateFromDay (Day t)
           + (daysInMonth (YearFromDay (Day t)) (MonthFromDay (Day t))
              - DateFromDay (Day t)))
    with (daysInMonth (YearFromDay (Day t)) (MonthFromDay (Day t))) in S by lia.
  lia.
Qed.

(** One month back lands in the month that ends the day before the first
    of this month. *)
Lemma endOfMonth_subMonths (t : Z) :
  endOfMonth (subMonths t 1) = MakeDate (Day t - getDate t) (msPerDay - 1).
Proof.
  rewrite endOfMonth_value. f_equal.
  pose proof (Day_subMonths_1 t) as Ds. cbv zeta in Ds.
  pose proof (last_day_of_previous_month (Day t)) as [Hlast Hr]. cbv zeta in Hlast, Hr.
  pose proof (DateFromDay_le_31 (Day t)) as Hd.
  pose proof (fields_valid (Day t - DateFromDay (Day t))) as [Hm _].
  pose proof (MakeDay_fields (Day t - DateFromDay (Day t))) as R.
  unfold getDate in *.
  set (n := Day t) in *. set (d := DateFromDay n) in *.
  set (e := n - d) in *. set (de := DateFromDay e) in *.
  set (ye := YearFromDay e) in *. set (me := MonthFromDay e) in *.
  set (x := d + de - Z.max d de).
  assert (Hx : 1 <= x <= daysInMonth ye me) by (subst x; lia).
  assert (Es : Day (subMonths t 1) = MakeDay ye me x).
  { pose proof (MakeDay_add_date ye me de (x - de)) as S.
    replace (de + (x - de)) with x in S by lia. subst x. lia. }
  unfold getFullYear, getMonth. rewrite Es.
  destruct (fields_MakeDay ye me x Hm Hx) as (-> & -> & ->).
  pose proof (MakeDay_add_date ye me de (x - de)) as S.
  replace (de + (x - de)) with x in S by lia. lia.
Qed.

Lemma months_adjacent_facts (now : Z) :
  end_ (lastMonth now) + 1 = start (currentMonth now) /\
  start (lastMonth now) <= end_ (lastMonth now) /\
  start (currentMonth now) <= now <= end_ (currentMonth now) /\
  forall t, isWithinInterval t (lastMonth now)
            && isWithinInterval t (currentMonth now) = false.
Proof.
  assert (E : end_ (lastMonth now) + 1 = start (currentMonth now)).
  { cbn [lastMonth currentMonth start end_].
    rewrite endOfMonth_subMonths, startOfMonth_value. unfold MakeDate. lia. }
  split; [exact E |].
  pose proof (month_contains (subMonths now 1)) as Hl.
  pose proof (month_contains now) as Hc.
  split; [cbn [lastMonth start end_]; lia |].
  split; [cbn [currentMonth start end_]; lia |].
  intros t. unfold isWithinInterval.
  destruct (start (lastMonth now) <=? t) eqn:A, (t <=? end_ (lastMonth now)) eqn:B,
    (start (currentMonth now) <=? t) eqn:C, (t <=? end_ (currentMonth now)) eqn:D;
    cbn [andb]; try reflexivity; bool_to_prop; lia.
Qed.

(** *** Sums over filters *)

Lemma sumOf_nonneg {A : Type} (f : A -> Q) (l : list A) :
  Forall (fun x => (0 <= f x)%Q) l -> (0 <= sumOf f l)%Q.
Proof.
  induction 1 as [| x l Hx _ IH]; [apply Qle_refl |].
  rewrite sumOf_cons. lra.
Qed.

Lemma sumOf_app {A : Type} (f : A -> Q) (l l' : list A) :
  (sumOf f (l ++ l') == sumOf f l + sumOf f l')%Q.
Proof.
  induction l as [| x l IH]; cbn [app].
  - unfold sumOf at 2. cbn [fold_left]. ring.
  - rewrite !sumOf_cons, IH. ring.
Qed.

Lemma sumOf_single {A : Type} (f : A -> Q) (x : A) : (sumOf f [x] == f x)%Q.
Proof. unfold sumOf. cbn [fold_left]. ring. Qed.

(** Two filters that never both hold, inside a third one. *)
Lemma sum_filter_union (f g h : Transaction.t -> bool) (l : list Transaction.t) :
  (forall t, In t l -> h t = f t || g t) ->
  (forall t, In t l -> f t && g t = false) ->
  (sumAmounts (filter f l) + sumAmounts (filter g l) == sumAmounts (filter h l))%Q.
Proof.
  unfold sumAmounts. induction l as [| t l IH]; intros Hu Hd; [reflexivity |].
  cbn [filter]. specialize (Hu t (or_introl eq_refl)) as Ht.
  specialize (Hd t (or_introl eq_refl)) as Hdt.
  assert (IH' : (sumOf Transaction.amount (filter f l)
                 + sumOf Transaction.amount (filter g l)
                 == sumOf Transaction.amount (filter h l))%Q).
  { apply IH; intros; [apply Hu | apply Hd]; now right. }
  rewrite Ht. destruct (f t), (g t); cbn [orb andb] in *; try discriminate;
    rewrite ?sumOf_cons, <- IH'; ring.
Qed.

Lemma sum_filter_le (f h : Transaction.t -> bool) (l : list Transaction.t) :
  (forall t, In t l -> f t = true -> h t = true) ->
  (forall t, In t l -> h t = true -> (0 <= Transaction.amount t)%Q) ->
  (sumAmounts (filter f l) <= sumAmounts (filter h l))%Q.
Proof.
  unfold sumAmounts. induction l as [| t l IH]; intros Hs Hn; [apply Qle_refl |].
  assert (IH' : (sumOf Transaction.amount (filter f l)
                 <= sumOf Transaction.amount (filter h l))%Q).
  { apply IH; intros; [apply Hs | apply Hn]; auto; now right. }
  cbn [filter]. specialize (Hs t (or_introl eq_refl)).
  specialize (Hn t (or_introl eq_refl)).
  destruct (f t), (h t); rewrite ?sumOf_cons; lra.
Qed.

(** X13. Last month's interval ends one millisecond before this month's
    begins: no date lies in both, and none between them. *)
Theorem months_adjacent (now : Z) :
  end_ (lastMonth now) + 1 = start (currentMonth now) /\
  start (lastMonth now) <= end_ (lastMonth now) /\
  start (currentMonth now) <= now <= end_ (currentMonth now) /\
  forall t, isWithinInterval t (lastMonth now)
            && isWithinInterval t (currentMonth now) = false.
Proof. apply months_adjacent_facts. Qed.

Lemma month_totals_nonneg (jars : list Jar.t) (now : Z) :
  nonNegativeSavings jars ->
  (0 <= currentMonthSavings jars now)%Q /\ (0 <= lastMonthSavings jars now)%Q.
Proof.
  intros H. split; apply sumOf_nonneg, Forall_forall; intros t Ht;
    apply filter_In in Ht as [Hin Hf]; apply andb_true_iff in Hf as [Hs _];
    now apply H.
Qed.

Lemma exact_month_totals (jars : list Jar.t) (now : Z) :
  nonNegativeSavings jars ->
  (currentMonthSavings jars now + lastMonthSavings jars now
   <= sumRecordAmounts (savedRecords jars))%Q.
Proof.
  intros H.
  destruct (months_adjacent_facts now) as (_ & _ & _ & Hdis).
  unfold currentMonthSavings, lastMonthSavings.
  rewrite (sum_filter_union _ _
             (fun t => savedOn t
                       && (isWithinInterval (Transaction.date t) (currentMonth now)
                           || isWithinInterval (Transaction.date t) (lastMonth now)))).
  - rewrite <- saved_total. apply sum_filter_le.
    + intros t _ Ht. now apply andb_true_iff in Ht as [Hs _].
    + exact H.
  - intros t _. destruct (savedOn t); cbn [andb orb]; reflexivity.
  - intros t _. specialize (Hdis (Transaction.date t)).
    destruct (savedOn t); cbn [andb]; [| reflexivity].
    rewrite andb_comm. exact Hdis.
Qed.

(** X14. When no "saved" amount is negative, the totals of this month and of
    last month, added up in doubles, are not negative.  When moreover the
    saved amounts are whole numbers whose absolute values add up to no
    more than 2^53, so that no addition rounds, the two totals together do
    not exceed the total of all "saved" amounts. *)
Theorem month_totals_bounded (jars : list Jar.t) (now : Z) :
  nonNegativeSavings jars ->
  (0 <= Doubles.currentMonthSavings jars now)%Q /\
  (0 <= Doubles.lastMonthSavings jars now)%Q /\
  (Doubles.WholeSavings jars ->
     (Doubles.currentMonthSavings jars now + Doubles.lastMonthSavings jars now
      <= Doubles.savedTotal jars)%Q).
Proof.
  intros H.
  assert (Hn : forall p : Transaction.t -> bool,
             (forall t, p t = true -> savedOn t = true) ->
             (0 <= Doubles.sumAmounts (filter p (allTransactions jars)))%Q).
  { intros p Hp. apply sumOfD_nonneg, Forall_forall. intros t Ht.
    apply filter_In in Ht as [Hin Hf]. apply H; auto. }
  assert (Hs : forall (i : Interval) (t : Transaction.t),
             savedOn t && isWithinInterval (Transaction.date t) i = true ->
             savedOn t = true).
  { intros i t Ht. now apply andb_true_iff in Ht as [Ht _]. }
  split; [apply Hn, Hs | split; [apply Hn, Hs |]].
  intros W.
  destruct (whole_selection jars _ W (Hs (currentMonth now))) as (_ & _ & _ & Ec).
  destruct (whole_selection jars _ W (Hs (lastMonth now))) as (_ & _ & _ & El).
  destruct (savedTotal_whole jars W) as [_ Et].
  cbv zeta in Ec, El.
  unfold Doubles.currentMonthSavings, Doubles.lastMonthSavings.
  rewrite Ec, El, Et. apply exact_month_totals, H.
Qed.

Lemma sample_nonNegative : nonNegativeSavings Samples.twoMonths.
Proof.
  intros t Hin _. vm_compute in Hin.
  destruct Hin as [<- | [<- | []]]; vm_compute; discriminate.
Defined.

Lemma sample_twoMonths_whole : Doubles.WholeSavings Samples.twoMonths.
Proof.
  split; [| vm_compute; discriminate].
  vm_compute. repeat constructor.
Defined.

Lemma month_totals_bounded_witness :
  nonNegativeSavings Samples.twoMonths /\
  Doubles.WholeSavings Samples.twoMonths /\
  (Doubles.currentMonthSavings Samples.twoMonths Samples.mondayNoon
   + Doubles.lastMonthSavings Samples.twoMonths Samples.mondayNoon
   <= Doubles.savedTotal Samples.twoMonths)%Q.
Proof.
  split; [exact sample_nonNegative |].
  split; [exact sample_twoMonths_whole |].
  apply (proj2 (proj2 (month_totals_bounded Samples.twoMonths Samples.mondayNoon
                         sample_nonNegative))
           sample_twoMonths_whole).
Defined.

(** *** Velocity *)

Lemma velocity_sign (current last : Q) :
  (0 < last)%Q ->
  ((0 < (current - last) / last * 100)%Q <-> (last < current)%Q) /\
  (((current - last) / last * 100 < 0)%Q <-> (current < last)%Q) /\
  (0 <= current -> -100 <= (current - last) / last * 100)%Q.
Proof.
  intros Hl.
  assert (Hne : ~ (last == 0)%Q) by (intros E; rewrite E in Hl; now apply Qlt_irrefl in Hl).
  set (v := ((current - last) / last * 100)%Q).
  assert (E : (v * last == (current - last) * 100)%Q) by (subst v; now field).
  assert (Hcases : ((0 < v)%Q \/ (v == 0)%Q \/ (v < 0)%Q)).
  { destruct (Q_dec 0 v) as [[H | H] | H]; auto. right. left. now symmetry. }
  split; [| split].
  - split; intros H.
    + assert ((0 < v * last)%Q) by (apply Qmult_lt_0_compat; assumption). lra.
    + destruct Hcases as [Hv | [Hv | Hv]]; [exact Hv | rewrite Hv in E; lra |].
      assert ((0 < (- v) * last)%Q) by (apply Qmult_lt_0_compat; lra).
      assert (((- v) * last == - (v * last))%Q) by ring. lra.
  - split; intros H.
    + assert ((0 < (- v) * last)%Q) by (apply Qmult_lt_0_compat; lra).
      assert (((- v) * last == - (v * last))%Q) by ring. lra.
    + destruct Hcases as [Hv | [Hv | Hv]]; [| rewrite Hv in E; lra | exact Hv].
      assert ((0 < v * last)%Q) by (apply Qmult_lt_0_compat; assumption). lra.
  - intros Hc. apply Qnot_lt_le. intros Hv.
    assert ((0 < (- 100 - v) * last)%Q) by (apply Qmult_lt_0_compat; lra).
    assert (((- 100 - v) * last == - (100 * last) - v * last)%Q) by ring. lra.
Qed.

(** X15. When no "saved" amount is negative, the velocity is never below
    -100 percent. *)
Theorem velocity_lower_bound (jars : list Jar.t) (now : Z) :
  nonNegativeSavings jars -> (-100 <= velocityPercent jars now)%Q.
Proof.
  intros H. destruct (month_totals_nonneg jars now H) as [Hc _].
  unfold velocityPercent.
  destruct (Qgtb (lastMonthSavings jars now) 0) eqn:El.
  - apply Qgtb_true in El. now apply velocity_sign.
  - destruct (Qgtb (currentMonthSavings jars now) 0); lra.
Qed.

Lemma velocity_lower_bound_witness :
  nonNegativeSavings Samples.twoMonths /\
  (-100 <= velocityPercent Samples.twoMonths Samples.mondayNoon)%Q.
Proof.
  split; [exact sample_nonNegative |].
  apply (velocity_lower_bound Samples.twoMonths Samples.mondayNoon sample_nonNegative).
Defined.

(** X16. The text under the velocity says "faster" exactly when this month's
    total exceeds a positive total of last month, or is positive while
    last month's is not; "slower" exactly when it is below a positive
    total of last month; "same pace" otherwise. *)
Theorem pace_message_cases (jars : list Jar.t) (now : Z) :
  let current := currentMonthSavings jars now in
  let last := lastMonthSavings jars now in
  let message := DashboardView.paceMessage (analytics jars now) in
  (message = DashboardView.Faster
   <-> ((0 < last)%Q /\ (last < current)%Q)
       \/ (~ (0 < last)%Q /\ (0 < current)%Q)) /\
  (message = DashboardView.Slower <-> (0 < last)%Q /\ (current < last)%Q).
Proof.
  cbv zeta. unfold DashboardView.paceMessage. cbn [analytics a_velocityPercent].
  unfold velocityPercent.
  destruct (Qgtb (lastMonthSavings jars now) 0) eqn:El.
  - apply Qgtb_true in El.
    destruct (velocity_sign (currentMonthSavings jars now) _ El) as (Hp & Hn & _).
    destruct (Qgtb _ 0) eqn:Ev.
    + apply Qgtb_true, Hp in Ev. split; split; try discriminate; intros; auto.
      destruct H as [_ H]. lra.
    + apply Qgtb_false in Ev. destruct (Qltb _ 0) eqn:Ew.
      * apply Qltb_true, Hn in Ew. split; split; try discriminate; intros; auto.
        destruct H as [[_ H] | [H _]]; [lra | contradiction].
      * assert (~ (currentMonthSavings jars now < lastMonthSavings jars now)%Q).
        { intros H. apply Hn, Qltb_true in H. congruence. }
        assert (~ (lastMonthSavings jars now < currentMonthSavings jars now)%Q).
        { intros H'. apply Hp in H'. contradiction. }
        split; split; try discriminate; intros; exfalso; intuition.
  - apply Qgtb_false in El.
    destruct (Qgtb (currentMonthSavings jars now) 0) eqn:Ec.
    + apply Qgtb_true in Ec.
      replace (Qgtb 100 0) with true by reflexivity.
      split; split; try discriminate; intros; auto.
      destruct H as [H _]. contradiction.
    + apply Qgtb_false in Ec.
      replace (Qgtb 0 0) with false by reflexivity.
      replace (Qltb 0 0) with false by reflexivity.
      split; split; try discriminate; intros; exfalso; intuition.
Qed.

Lemma pace_message_cases_witness :
  ((0 < lastMonthSavings Samples.twoMonths Samples.mondayNoon)%Q /\
   (currentMonthSavings Samples.twoMonths Samples.mondayNoon
    < lastMonthSavings Samples.twoMonths Samples.mondayNoon)%Q) /\
  DashboardView.paceMessage (analytics Samples.twoMonths Samples.mondayNoon)
  = DashboardView.Slower.
Proof.
  assert (H : (0 < lastMonthSavings Samples.twoMonths Samples.mondayNoon)%Q /\
              (currentMonthSavings Samples.twoMonths Samples.mondayNoon
               < lastMonthSavings Samples.twoMonths Samples.mondayNoon)%Q)
    by (split; vm_compute; reflexivity).
  split; [exact H |].
  apply (proj2 (proj2 (pace_message_cases Samples.twoMonths Samples.mondayNoon)) H).
Defined.

(** *** The weekly series *)

Lemma weekPoint_window (jars : list Jar.t) (now i : Z) :
  WeekPoint.amount (weekPoint jars now i)
  = sumAmounts
      (filter (fun t => savedOn t
                        && isWithinInterval (Transaction.date t) (weekWindow now i))
              (allTransactions jars)).
Proof.
  unfold weekPoint, weekWindow. cbn [WeekPoint.amount].
  change (subMonths now 0) with now.
  rewrite setDate_back, setDate_shift. reflexivity.
Qed.

(** X17. The four weekly points are labelled "Week 1" to "Week 4"; the point of
    loop turn [i] totals the "saved" transactions dated from [7 i] days
    before [now] to 6 days after that instant, both included, with [i]
    running 3, 2, 1, 0; no date lies in two of these windows. *)
Theorem weekly_windows (jars : list Jar.t) (now : Z) :
  map WeekPoint.week (weeklyData jars now)
  = ["Week 1"; "Week 2"; "Week 3"; "Week 4"]%string /\
  map WeekPoint.amount (weeklyData jars now)
  = map (fun i =>
           sumAmounts
             (filter (fun t => savedOn t
                               && isWithinInterval (Transaction.date t)
                                    (weekWindow now i))
                     (allTransactions jars)))
        [3; 2; 1; 0] /\
  forall t,
    (List.length (filter (fun i => isWithinInterval t (weekWindow now i))
                         [3; 2; 1; 0]%Z) <= 1)%nat.
Proof.
  split; [reflexivity |]. split.
  - unfold weeklyData. cbn [map]. now rewrite !weekPoint_window.
  - intros t. cbn [filter]. unfold isWithinInterval, weekWindow. cbn [start end_].
    unfold msPerDay.
    repeat match goal with
           | |- context [?a <=? ?b] => destruct (Z.leb_spec a b)
           end; cbn [andb List.length]; lia.
Qed.

(** *** The daily series *)

Lemma eachDayLoop_days (fuel : nat) (a endTime : Z) :
  eachDayLoop fuel (MakeDate a 0) endTime
  = map (fun k => MakeDate (a + Z.of_nat k) 0)
        (seq 0 (Nat.min fuel (Z.to_nat (Day endTime - a + 1)))).
Proof.
  revert a. induction fuel as [| fuel IH]; intros a; [reflexivity |].
  cbn [eachDayLoop].
  destruct (MakeDate a 0 <=? endTime) eqn:C; bool_to_prop.
  - apply MakeDate_le_iff in C. rewrite next_day, IH.
    replace (Z.to_nat (Day endTime - a + 1))
      with (S (Z.to_nat (Day endTime - (a + 1) + 1))) by lia.
    rewrite <- Nat.succ_min_distr. cbn [seq map].
    rewrite Z.add_0_r. f_equal.
    rewrite <- seq_shift, map_map. apply map_ext. intros k.
    f_equal. lia.
  - assert (~ a <= Day endTime) as N by (rewrite <- MakeDate_le_iff; lia).
    replace (Z.to_nat (Day endTime - a + 1)) with O by lia.
    now rewrite Nat.min_0_r.
Qed.

Lemma keyEqb_format (x y : Z) :
  keyEqb (format_yyyy_MM_dd x) (format_yyyy_MM_dd y) = (Day x =? Day y).
Proof.
  destruct (Day x =? Day y) eqn:E; bool_to_prop.
  - apply keyEqb_eq, format_Day, E.
  - apply not_true_is_false. intros H. apply keyEqb_eq, format_Day in H.
    contradiction.
Qed.

Lemma dailySavingsData_explicit (jars : list Jar.t) (now : Z) :
  dailySavingsData jars now
  = map (fun k =>
           {| DailyPoint.date :=
                format_MMM_dd (MakeDate (Day (subMonths now 1) + Z.of_nat k) 0);
              DailyPoint.amount :=
                sumAmounts
                  (filter (fun t => savedOn t
                                    && (Day (Transaction.date t)
                                        =? Day (subMonths now 1) + Z.of_nat k))
                          (allTransactions jars)) |})
        (seq 0 (Z.to_nat (Day now - Day (subMonths now 1) + 1))).
Proof.
  unfold dailySavingsData, last30Days, eachDayOfInterval, setHours.
  cbn [start end_].
  change (((0 * 60 + 0) * 60 + 0) * 1000 + 0) with 0.
  rewrite eachDayLoop_days, Nat.min_id, map_map.
  apply map_ext. intros k. f_equal. f_equal.
  apply filter_ext. intros t. f_equal.
  rewrite keyEqb_format, Day_MakeDate by (unfold msPerDay; lia). reflexivity.
Qed.

(** X18. The daily series has one point per calendar day, from the day one
    month before [now] to the day of [now], in order; each point carries
    the label of its day and the total of the "saved" transactions dated
    on that day. *)
Theorem daily_series_points (jars : list Jar.t) (now : Z) :
  dailySavingsData jars now
  = map (fun k =>
           {| DailyPoint.date :=
                format_MMM_dd (MakeDate (Day (subMonths now 1) + Z.of_nat k) 0);
              DailyPoint.amount :=
                sumAmounts
                  (filter (fun t => savedOn t
                                    && (Day (Transaction.date t)
                                        =? Day (subMonths now 1) + Z.of_nat k))
                          (allTransactions jars)) |})
        (seq 0 (Z.to_nat (Day now - Day (subMonths now 1) + 1))).
Proof. apply dailySavingsData_explicit. Qed.

Lemma sum_over_days (l : list Transaction.t) (a : Z) (n : nat) :
  (sumOf (fun k => sumAmounts
                     (filter (fun t => savedOn t
                                       && (Day (Transaction.date t) =? a + Z.of_nat k))
                             l))
         (seq 0 n)
   == sumAmounts
        (filter (fun t => savedOn t
                          && ((a <=? Day (Transaction.date t))
                              && (Day (Transaction.date t) <? a + Z.of_nat n)))
                l))%Q.
Proof.
  induction n as [| n IH].
  - unfold sumOf at 1. cbn [seq fold_left].
    assert (E : filter (fun t => savedOn t
                                 && ((a <=? Day (Transaction.date t))
                                     && (Day (Transaction.date t) <? a + Z.of_nat 0)))
                       l = []).
    { induction l as [| t l IHl]; [reflexivity |]. cbn [filter].
      replace ((a <=? Day (Transaction.date t))
               && (Day (Transaction.date t) <? a + Z.of_nat 0)) with false
        by (symmetry; apply andb_false_iff;
            destruct (Z.leb_spec a (Day (Transaction.date t))); [right | now left];
            apply Z.ltb_ge; lia).
      rewrite andb_false_r. exact IHl. }
    rewrite E. reflexivity.
  - rewrite seq_S, sumOf_app, IH, sumOf_single. cbn [Nat.add].
    apply sum_filter_union; intros t _; destruct (savedOn t); cbn [andb orb];
      try reflexivity;
      destruct (Z.leb_spec a (Day (Transaction.date t)));
      destruct (Z.ltb_spec (Day (Transaction.date t)) (a + Z.of_nat n));
      destruct (Z.ltb_spec (Day (Transaction.date t)) (a + Z.of_nat (S n)));
      destruct (Z.eqb_spec (Day (Transaction.date t)) (a + Z.of_nat n));
      cbn [andb orb]; try reflexivity; lia.
Qed.

Lemma exact_daily_total (jars : list Jar.t) (now : Z) :
  (sumOf DailyPoint.amount (dailySavingsData jars now)
   == sumAmounts
        (filter (fun t => savedOn t
                          && ((Day (subMonths now 1) <=? Day (Transaction.date t))
                              && (Day (Transaction.date t) <=? Day now)))
                (allTransactions jars)))%Q.
Proof.
  rewrite dailySavingsData_explicit, sumOf_map. cbn [DailyPoint.amount].
  rewrite sum_over_days.
  pose proof (subMonths_1_back now) as B.
  assert (E : forall t : Transaction.t,
             (Day (Transaction.date t)
              <? Day (subMonths now 1)
                 + Z.of_nat (Z.to_nat (Day now - Day (subMonths now 1) + 1)))
             = (Day (Transaction.date t) <=? Day now)).
  { intros t. destruct (Z.ltb_spec (Day (Transaction.date t))
                          (Day (subMonths now 1)
                           + Z.of_nat (Z.to_nat (Day now - Day (subMonths now 1) + 1))));
      destruct (Z.leb_spec (Day (Transaction.date t)) (Day now)); try reflexivity; lia. }
  rewrite (filter_ext _ (fun t => savedOn t
                          && ((Day (subMonths now 1) <=? Day (Transaction.date t))
                              && (Day (Transaction.date t) <=? Day now)))).
  - reflexivity.
  - intros t. now rewrite E.
Qed.

Lemma sumOf_pointwise {A : Type} (f g : A -> Q) (l : list A) :
  (forall x, (f x == g x)%Q) -> (sumOf f l == sumOf g l)%Q.
Proof.
  intros H. induction l as [| x l IH]; [reflexivity |].
  now rewrite !sumOf_cons, IH, H.
Qed.

(** X19. When the saved amounts are whole numbers whose absolute values add
    up to no more than 2^53, so that no addition rounds, the amounts of the
    daily series add up to the total of the "saved" transactions dated from
    the day one month before [now] to the day of [now]. *)
Theorem daily_series_total (jars : list Jar.t) (now : Z) :
  Doubles.WholeSavings jars ->
  (sumOf DailyPoint.amount (Doubles.dailySavingsData jars now)
   == Doubles.sumAmounts
        (filter (fun t => savedOn t
                          && ((Day (subMonths now 1) <=? Day (Transaction.date t))
                              && (Day (Transaction.date t) <=? Day now)))
                (allTransactions jars)))%Q.
Proof.
  intros W.
  assert (Hs : forall (q : Transaction.t -> bool) (t : Transaction.t),
             savedOn t && q t = true -> savedOn t = true).
  { intros q t Ht. now apply andb_true_iff in Ht as [Ht _]. }
  destruct (whole_selection jars _ W
              (Hs (fun t => (Day (subMonths now 1) <=? Day (Transaction.date t))
                            && (Day (Transaction.date t) <=? Day now))))
    as (_ & _ & _ & Er).
  cbv zeta in Er. rewrite Er, <- exact_daily_total.
  unfold Doubles.dailySavingsData, dailySavingsData.
  rewrite !sumOf_map. cbn [DailyPoint.amount].
  apply sumOf_pointwise. intros day.
  destruct (whole_selection jars _ W
              (Hs (fun t => keyEqb (format_yyyy_MM_dd (Transaction.date t))
                                   (format_yyyy_MM_dd day))))
    as (_ & _ & _ & Ed).
  exact Ed.
Qed.

Lemma daily_series_total_witness :
  Doubles.WholeSavings Samples.twoMonths /\
  (sumOf DailyPoint.amount
     (Doubles.dailySavingsData Samples.twoMonths Samples.mondayNoon)
   == 30)%Q.
Proof.
  split; [exact sample_twoMonths_whole |].
  rewrite (daily_series_total Samples.twoMonths Samples.mondayNoon
             sample_twoMonths_whole).
  vm_compute. reflexivity.
Defined.

(** *** The list of predictions in the markup *)

(** X20. For every element of the predictions list the markup never takes
    the "calculating..." branch, and it shows the number of days, at least
    1, in brackets (for jars on which no operation on doubles overflows).
    While the date that many whole days after [now] is a time value of a
    Date, the text is that date formatted; beyond, the predicted date is
    Invalid Date and [format] throws. *)
Theorem prediction_texts (jars : list Jar.t) (now : Z) (p : Prediction.t) :
  0 <= now <= maxTime ->
  (forall jar, In jar jars -> noOverflow jar) ->
  In p (predictions jars now) ->
  exists d,
    1 <= d /\
    DashboardView.predictionDaysText p = DashboardView.DaysInBrackets d /\
    (now + d * msPerDay <= maxTime ->
       DashboardView.predictionDateText p
       = DashboardView.Text
           (DashboardView.format_MMMM_dd_yyyy (now + d * msPerDay)) /\
       Day (now + d * msPerDay) = Day now + d) /\
    (maxTime < now + d * msPerDay ->
       DashboardView.predictionDateText p = DashboardView.Throws).
Proof.
  intros Hnow _ Hin.
  destruct (kept_prediction jars now p Hnow Hin) as (d & Hd & H1 & Hcases).
  exists d. split; [exact H1 |].
  unfold DashboardView.predictionDateText, DashboardView.predictionDaysText.
  rewrite Hd.
  replace (d =? 0) with false by (symmetry; apply Z.eqb_neq; lia).
  split; [reflexivity |].
  destruct Hcases as [[L E] | [G E]]; rewrite E; split; intros H; try lia.
  - split; [reflexivity |].
    unfold Day, msPerDay. now rewrite Z.div_add by lia.
  - reflexivity.
Qed.

Lemma prediction_texts_witness :
  0 <= Samples.mondayNoon <= maxTime /\
  (forall jar, In jar [Samples.fiveSavings] -> noOverflow jar) /\
  In (predictJar Samples.mondayNoon Samples.fiveSavings)
     (predictions [Samples.fiveSavings] Samples.mondayNoon) /\
  exists d,
    1 <= d /\
    DashboardView.predictionDaysText
      (predictJar Samples.mondayNoon Samples.fiveSavings)
    = DashboardView.DaysInBrackets d /\
    (Samples.mondayNoon + d * msPerDay <= maxTime ->
       DashboardView.predictionDateText
         (predictJar Samples.mondayNoon Samples.fiveSavings)
       = DashboardView.Text
           (DashboardView.format_MMMM_dd_yyyy (Samples.mondayNoon + d * msPerDay)) /\
       Day (Samples.mondayNoon + d * msPerDay) = Day Samples.mondayNoon + d) /\
    (maxTime < Samples.mondayNoon + d * msPerDay ->
       DashboardView.predictionDateText
         (predictJar Samples.mondayNoon Samples.fiveSavings)
       = DashboardView.Throws).
Proof.
  assert (Hnow : 0 <= Samples.mondayNoon <= maxTime)
    by (vm_compute; split; discriminate).
  assert (Hfin : forall jar, In jar [Samples.fiveSavings] -> noOverflow jar).
  { intros jar [<- | []]. repeat split; vm_compute; reflexivity. }
  assert (Hin : In (predictJar Samples.mondayNoon Samples.fiveSavings)
                   (predictions [Samples.fiveSavings] Samples.mondayNoon))
    by (vm_compute; left; reflexivity).
  split; [exact Hnow |]. split; [exact Hfin |]. split; [exact Hin |].
  apply (prediction_texts [Samples.fiveSavings] Samples.mondayNoon _ Hnow Hfin Hin).
Defined.

(** Instances of the statements above that are equivalences. *)
Lemma allTransactions_sorted_witness :
  In (Samples.savedRecord 1 10 Samples.mondayNoon)
     (recordsOf (Samples.jarWith 100 10 [Samples.savedRecord 1 10 Samples.mondayNoon])) /\
  In (tagged (Samples.jarWith 100 10 [Samples.savedRecord 1 10 Samples.mondayNoon])
             (Samples.savedRecord 1 10 Samples.mondayNoon))
     (allTransactions Samples.oneSaving).
Proof.
  assert (Hr : In (Samples.savedRecord 1 10 Samples.mondayNoon)
                  (recordsOf (Samples.jarWith 100 10
                                [Samples.savedRecord 1 10 Samples.mondayNoon])))
    by (left; reflexivity).
  split; [exact Hr |].
  destruct (allTransactions_sorted Samples.oneSaving) as (_ & _ & _ & Hin).
  apply (proj2 (Hin _)).
  exists (Samples.jarWith 100 10 [Samples.savedRecord 1 10 Samples.mondayNoon]),
         (Samples.savedRecord 1 10 Samples.mondayNoon).
  split; [left; reflexivity | split; [exact Hr | reflexivity]].
Defined.

Lemma uniqueDates_spec_witness :
  In {| year := 2024; month := 1; dayOfMonth := 1 |}
     (uniqueDates Samples.oneSaving) /\
  exists t, In t (allTransactions Samples.oneSaving) /\ savedOn t = true
            /\ format_yyyy_MM_dd (Transaction.date t)
                = {| year := 2024; month := 1; dayOfMonth := 1 |}.
Proof.
  assert (H : In {| year := 2024; month := 1; dayOfMonth := 1 |}
                 (uniqueDates Samples.oneSaving))
    by (vm_compute; left; reflexivity).
  split; [exact H |].
  destruct (uniqueDates_spec Samples.oneSaving) as (_ & _ & Hin).
  apply (proj1 (Hin _) H).
Defined.

End AnalyticsExtra.
